(** * ledger-afa: depreciation (AfA) report over a ledger journal

    A shallow embedding of [ledger_afa.py].  The script walks the object
    graph of an already loaded [ledger] journal: accounts form a tree,
    every account and every transaction lists its postings, and every
    posting points back at its account and its transaction.

    - Monetary amounts are exact in [ledger]; a single commodity is
      assumed and an amount is an integer number of minor units ([Z]).
    - Back pointers ([post.account], [post.xact]) are handles that the
      journal dereferences; the account tree itself is an inductive tree,
      which is what makes the walker terminate.
    - Exceptions are values of [exn]; code that prints threads the list
      of printed lines. *)

From Stdlib Require Import ZArith List String Bool Lia Permutation Sorted.
Import ListNotations.
Local Open Scope string_scope.
Local Open Scope list_scope.
Local Open Scope Z_scope.

(** ** Python runtime: exceptions, [sum], [min] *)

Inductive exn : Type :=
| ValueError (message : string)
| AttributeError (message : string).

Inductive result (A : Type) : Type :=
| Ok (a : A)
| Raise (e : exn).
Arguments Ok {A} a.
Arguments Raise {A} e.

(** [sum(xs)]: start from [0] and add from the left. *)
Definition py_sum (xs : list Z) : Z := fold_left Z.add xs 0.

(** ** Dates ([datetime.date]) *)

Module Date.
Record t : Type := mk { year : Z; month : Z; day : Z }.

Definition eqb (a b : t) : bool :=
  (year a =? year b) && (month a =? month b) && (day a =? day b).

(** [a < b], lexicographic on (year, month, day). *)
Definition ltb (a b : t) : bool :=
  (year a <? year b)
  || ((year a =? year b)
      && ((month a <? month b)
          || ((month a =? month b) && (day a <? day b)))).
End Date.

(** [min(ds)]: the first smallest element; raises on an empty sequence. *)
Definition py_min (ds : list Date.t) : result Date.t :=
  match ds with
  | [] => Raise (ValueError "min() arg is an empty sequence")
  | d :: rest =>
      Ok (fold_left (fun m x => if Date.ltb x m then x else m) rest d)
  end.

(** ** The journal's object graph *)

(** Handles of accounts and of transactions.  Two transaction handles
    are equal exactly when they denote the same transaction. *)
Definition account_ref : Type := nat.
Definition xact_ref : Type := nat.

(** [xact.code] is [None] when the transaction carries no code. *)
Definition Code : Type := option string.

Definition code_eqb (a b : Code) : bool :=
  match a, b with
  | None, None => true
  | Some x, Some y => String.eqb x y
  | _, _ => false
  end.

Module Posting.
Record t : Type := mk {
  id : Z;
  date : Date.t;
  amount : Z;
  account : account_ref;
  xact : xact_ref
}.
End Posting.

Module Transaction.
Record t : Type := mk {
  code : Code;
  posts : list Posting.t
}.
End Transaction.

Module Account.
#[warnings="-register-all"]
Inductive t : Type := mk {
  name : string;
  fullname : string;
  accounts : list t;
  posts : list Posting.t
}.
End Account.

Module Journal.
(** What the script uses of a loaded journal: the account lookup by
    pattern ([journal.find_account_re], part of the [ledger] library)
    and the two back pointers of a posting. *)
Record t : Type := mk {
  find_account_re : string -> option Account.t;
  account_at : account_ref -> Account.t;
  xact_at : xact_ref -> Transaction.t
}.
End Journal.

(** ** Account tree walker *)

Fixpoint get_sub_accounts (account : Account.t) : list Account.t :=
  let top := Account.accounts account in
  let sub := flat_map get_sub_accounts (Account.accounts account) in
  top ++ sub.

(** ** Depreciation post selector *)

Definition get_afa_posts (journal : Journal.t) (account : string) (year : Z)
  : result (list Posting.t) :=
  match Journal.find_account_re journal account with
  | None => Raise (ValueError (String.append "Konto nicht gefunden: " account))
  | Some top =>
      let accounts := top :: get_sub_accounts top in
      Ok (filter (fun p => Date.year (Posting.date p) =? year)
                 (flat_map Account.posts accounts))
  end.

(** ** Asset discoverer *)

(** An element of the [inventory] set: the tuple [(p.account, p.xact)]. *)
Definition asset : Type := (account_ref * xact_ref)%type.

(** Equality of two such tuples inside a Python [set]: accounts compare
    by [fullname()] (the patched [__eq__]/[__hash__]), transactions by
    identity. *)
Definition asset_eqb (journal : Journal.t) (a b : asset) : bool :=
  String.eqb (Account.fullname (Journal.account_at journal (fst a)))
             (Account.fullname (Journal.account_at journal (fst b)))
  && Nat.eqb (snd a) (snd b).

(** A [set] is kept as the list of its elements in insertion order;
    adding an element equal to a present one changes nothing. *)
Definition set_add (journal : Journal.t) (s : list asset) (x : asset)
  : list asset :=
  if existsb (asset_eqb journal x) s then s else s ++ [x].

(** [s |= xs], also [set(xs)] from the empty set. *)
Definition set_union (journal : Journal.t) (s xs : list asset) : list asset :=
  fold_left (set_add journal) xs s.

(** The tuples one depreciation posting contributes: the other accounts
    of its parent transaction. *)
Definition siblings (journal : Journal.t) (post : Posting.t) : list asset :=
  map (fun p => (Posting.account p, Posting.xact p))
      (filter
         (fun p =>
            negb (String.eqb
                    (Account.fullname
                       (Journal.account_at journal (Posting.account p)))
                    (Account.fullname
                       (Journal.account_at journal (Posting.account post)))))
         (Transaction.posts (Journal.xact_at journal (Posting.xact post)))).

Definition get_inventory (journal : Journal.t) (posts : list Posting.t)
  : list asset :=
  fold_left
    (fun inventory post =>
       set_union journal inventory
                 (set_union journal [] (siblings journal post)))
    posts [].

(** ** Asset valuator *)

Module InventoryItem.
(** The object under construction: an attribute is [None] until
    [__init__] assigns it. *)
Record t : Type := mk {
  code : option Code;
  item : option string;
  account : option string;
  year : option Z;
  buy_date : option Date.t;
  total_value : option Z;
  last_year_value : option Z;
  next_year_value : option Z;
  deprecation_amount : option Z
}.

Definition fresh : t := mk None None None None None None None None None.

Definition set_code (v : Code) (o : t) : t :=
  mk (Some v) (item o) (account o) (year o) (buy_date o) (total_value o)
     (last_year_value o) (next_year_value o) (deprecation_amount o).
Definition set_item (v : string) (o : t) : t :=
  mk (code o) (Some v) (account o) (year o) (buy_date o) (total_value o)
     (last_year_value o) (next_year_value o) (deprecation_amount o).
Definition set_account (v : string) (o : t) : t :=
  mk (code o) (item o) (Some v) (year o) (buy_date o) (total_value o)
     (last_year_value o) (next_year_value o) (deprecation_amount o).
Definition set_year (v : Z) (o : t) : t :=
  mk (code o) (item o) (account o) (Some v) (buy_date o) (total_value o)
     (last_year_value o) (next_year_value o) (deprecation_amount o).
Definition set_buy_date (v : Date.t) (o : t) : t :=
  mk (code o) (item o) (account o) (year o) (Some v) (total_value o)
     (last_year_value o) (next_year_value o) (deprecation_amount o).
Definition set_total_value (v : Z) (o : t) : t :=
  mk (code o) (item o) (account o) (year o) (buy_date o) (Some v)
     (last_year_value o) (next_year_value o) (deprecation_amount o).
Definition set_last_year_value (v : Z) (o : t) : t :=
  mk (code o) (item o) (account o) (year o) (buy_date o) (total_value o)
     (Some v) (next_year_value o) (deprecation_amount o).
Definition set_next_year_value (v : Z) (o : t) : t :=
  mk (code o) (item o) (account o) (year o) (buy_date o) (total_value o)
     (last_year_value o) (Some v) (deprecation_amount o).
Definition set_deprecation_amount (v : Z) (o : t) : t :=
  mk (code o) (item o) (account o) (year o) (buy_date o) (total_value o)
     (last_year_value o) (next_year_value o) (Some v).
End InventoryItem.

(** What the program writes to standard output: a line of text, or the
    table rendered from a list of items (layout and colours are the
    renderer's business). *)
Inductive output : Type :=
| Line (s : string)
| Table (items : list InventoryItem.t) (year : Z).

(** State threaded through [__init__]: the object and standard output. *)
Record state : Type := mkState {
  self : InventoryItem.t;
  stdout : list output
}.

Definition M (A : Type) : Type := state -> result A * state.

Definition ret {A : Type} (a : A) : M A := fun s => (Ok a, s).

Definition bind {A B : Type} (m : M A) (k : A -> M B) : M B :=
  fun s =>
    match m s with
    | (Ok a, s') => k a s'
    | (Raise e, s') => (Raise e, s')
    end.

Definition lift {A : Type} (r : result A) : M A := fun s => (r, s).

Definition setattr (f : InventoryItem.t -> InventoryItem.t) : M unit :=
  fun s => (Ok tt, mkState (f (self s)) (stdout s)).

Definition print (msg : string) : M unit :=
  fun s => (Ok tt, mkState (self s) (stdout s ++ [Line msg])).

Notation "x <- m ;; k" := (bind m (fun x => k))
  (at level 61, m at next level, right associativity).
Notation "m ;; k" := (bind m (fun _ => k))
  (at level 61, right associativity).

(** [p.xact.code] and [p.xact.posts()]. *)
Definition xact_code (journal : Journal.t) (p : Posting.t) : Code :=
  Transaction.code (Journal.xact_at journal (Posting.xact p)).
Definition xact_posts (journal : Journal.t) (p : Posting.t)
  : list Posting.t :=
  Transaction.posts (Journal.xact_at journal (Posting.xact p)).

(** The local variable [first_post]: the list built by the comprehension
    and, once the unpacking has succeeded, its only element. *)
Inductive first_post_var : Type :=
| Unpacked (post : Posting.t)
| StillList (candidates : list Posting.t).

(** [try: first_post, = first_post / except ValueError as e:
    print(e.message)]. *)
Definition unpack_first_post (candidates : list Posting.t)
  : M first_post_var :=
  match candidates with
  | [post] => ret (Unpacked post)
  | [] =>
      print "need more than 0 values to unpack" ;;
      ret (StillList candidates)
  | _ :: _ :: _ =>
      print "too many values to unpack" ;;
      ret (StillList candidates)
  end.

(** [first_post.id]. *)
Definition first_post_id (first_post : first_post_var) : result Z :=
  match first_post with
  | Unpacked post => Ok (Posting.id post)
  | StillList _ =>
      Raise (AttributeError "'list' object has no attribute 'id'")
  end.

(** The generator summed into [deprecation_amount].  The conjunction is
    evaluated left to right, so [first_post.id] is only looked up for a
    posting of the reporting year. *)
Fixpoint deprecation_terms (journal : Journal.t) (code : Code) (year : Z)
  (first_post : first_post_var) (posts : list Posting.t) : result (list Z) :=
  match posts with
  | [] => Ok []
  | p :: rest =>
      if Date.year (Posting.date p) =? year then
        match first_post_id first_post with
        | Raise e => Raise e
        | Ok fid =>
            match deprecation_terms journal code year first_post rest with
            | Raise e => Raise e
            | Ok terms =>
                if negb (Posting.id p =? fid)
                   && (Posting.amount p <? 0)
                   && code_eqb (xact_code journal p) code
                then Ok (Posting.amount p :: terms)
                else Ok terms
            end
        end
      else deprecation_terms journal code year first_post rest
  end.

(** The generators of the other four aggregations. *)
Definition code_dates (journal : Journal.t) (code : Code)
  (posts : list Posting.t) : list Date.t :=
  map Posting.date
      (filter (fun p => code_eqb (xact_code journal p) code) posts).

Definition first_post_candidates (journal : Journal.t) (code : Code)
  (buy_date : Date.t) (posts : list Posting.t) : list Posting.t :=
  filter (fun post =>
            code_eqb (xact_code journal post) code
            && Date.eqb (Posting.date post) buy_date
            && (0 <? Posting.amount post))
         posts.

Definition total_value_terms (journal : Journal.t) (code : Code)
  (buy_date : Date.t) (posts : list Posting.t) : list Z :=
  flat_map
    (fun p =>
       flat_map
         (fun pn =>
            if Date.eqb (Posting.date p) buy_date
               && code_eqb (xact_code journal p) code
               && (Posting.amount pn <? 0)
               && negb (Posting.id p =? Posting.id pn)
            then [Z.abs (Posting.amount p)]
            else [])
         (xact_posts journal p))
    posts.

Definition last_year_value_terms (journal : Journal.t) (code : Code)
  (year : Z) (posts : list Posting.t) : list Z :=
  map Posting.amount
      (filter
         (fun p =>
            ((Date.year (Posting.date p) <? year)
             && code_eqb (xact_code journal p) code)
            || ((Date.year (Posting.date p) =? year)
                && (0 <? Posting.amount p)
                && code_eqb (xact_code journal p) code))
         posts).

Definition next_year_value_terms (journal : Journal.t) (code : Code)
  (year : Z) (posts : list Posting.t) : list Z :=
  map Posting.amount
      (filter
         (fun p =>
            (Date.year (Posting.date p) <=? year)
            && code_eqb (xact_code journal p) code)
         posts).

(** [InventoryItem.__init__(self, account, xact, year)]. *)
Definition init (journal : Journal.t) (account : Account.t)
  (xact : Transaction.t) (year : Z) : M unit :=
  let code := Transaction.code xact in
  let posts := Account.posts account in
  setattr (InventoryItem.set_code code) ;;
  setattr (InventoryItem.set_item (Account.name account)) ;;
  setattr (InventoryItem.set_account (Account.fullname account)) ;;
  setattr (InventoryItem.set_year year) ;;
  buy_date <- lift (py_min (code_dates journal code posts)) ;;
  setattr (InventoryItem.set_buy_date buy_date) ;;
  first_post <-
    unpack_first_post (first_post_candidates journal code buy_date posts) ;;
  setattr (InventoryItem.set_total_value
             (py_sum (total_value_terms journal code buy_date posts))) ;;
  setattr (InventoryItem.set_last_year_value
             (py_sum (last_year_value_terms journal code year posts))) ;;
  setattr (InventoryItem.set_next_year_value
             (py_sum (next_year_value_terms journal code year posts))) ;;
  terms <- lift (deprecation_terms journal code year first_post posts) ;;
  setattr (InventoryItem.set_deprecation_amount (py_sum terms)).

(** [InventoryItem(account, xact, year)]: run [__init__] on a new object;
    the object is returned unless [__init__] raised. *)
Definition new (journal : Journal.t) (account : Account.t)
  (xact : Transaction.t) (year : Z) (out : list output)
  : result InventoryItem.t * list output :=
  match init journal account xact year (mkState InventoryItem.fresh out) with
  | (Ok _, s) => (Ok (self s), stdout s)
  | (Raise e, s) => (Raise e, stdout s)
  end.

(** ** The program *)

(** [[InventoryItem(a, x, jahr) for a, x in inventory]]. *)
Fixpoint new_all (journal : Journal.t) (jahr : Z) (inventory : list asset)
  (out : list output) : result (list InventoryItem.t) * list output :=
  match inventory with
  | [] => (Ok [], out)
  | (a, x) :: rest =>
      match new journal (Journal.account_at journal a)
                (Journal.xact_at journal x) jahr out with
      | (Raise e, out') => (Raise e, out')
      | (Ok i, out') =>
          match new_all journal jahr rest out' with
          | (Raise e, out'') => (Raise e, out'')
          | (Ok items, out'') => (Ok (i :: items), out'')
          end
      end
  end.

(** [except ValueError as e: print(e.message)]; any other exception
    leaves [main] uncaught. *)
Definition handler (e : exn) (out : list output)
  : list output * option exn :=
  match e with
  | ValueError message => (out ++ [Line message], None)
  | AttributeError _ => (out, Some e)
  end.

(** [main] on a loaded journal with [--konto] and [--jahr]: standard
    output and the exception that escaped, if any. *)
Definition main (journal : Journal.t) (konto : string) (jahr : Z)
  : list output * option exn :=
  match get_afa_posts journal konto jahr with
  | Raise e => handler e []
  | Ok posts =>
      match new_all journal jahr (get_inventory journal posts) [] with
      | (Raise e, out) => handler e out
      | (Ok inventory, out) => (out ++ [Table inventory jahr], None)
      end
  end.

(** ** Reference definitions used by the statements *)

(** Sum of [f p] over the postings [p] of [posts] that satisfy [keep]. *)
Fixpoint sum_where (f : Posting.t -> Z) (keep : Posting.t -> bool)
  (posts : list Posting.t) : Z :=
  match posts with
  | [] => 0
  | p :: rest =>
      if keep p then f p + sum_where f keep rest
      else sum_where f keep rest
  end.

Definition year_of (p : Posting.t) : Z := Date.year (Posting.date p).

Definition code_matches (journal : Journal.t) (code : Code) (p : Posting.t)
  : bool :=
  code_eqb (xact_code journal p) code.

(** The identifier of a posting identifies it among [posts]. *)
Definition ids_identify (posts : list Posting.t) : Prop :=
  forall p q, In p posts -> In q posts -> Posting.id p = Posting.id q -> p = q.

(** *** Account tree *)

(** [d] is a direct or indirect child of [root]. *)
Inductive descendant (root : Account.t) : Account.t -> Prop :=
| descendant_child (c : Account.t) :
    In c (Account.accounts root) -> descendant root c
| descendant_deeper (c d : Account.t) :
    In c (Account.accounts root) -> descendant c d -> descendant root d.

(** The account reached from [a] by following child indices. *)
Fixpoint subtree_at (a : Account.t) (path : list nat) : option Account.t :=
  match path with
  | [] => Some a
  | i :: rest =>
      match nth_error (Account.accounts a) i with
      | Some c => subtree_at c rest
      | None => None
      end
  end.

(** Number of levels below the account, plus one. *)
Fixpoint height (a : Account.t) : nat :=
  S (fold_right Nat.max 0%nat (map height (Account.accounts a))).

(** Every account down to depth [d] has [b] children; the accounts at
    depth [d] have none. *)
Fixpoint complete (b d : nat) (a : Account.t) : Prop :=
  match d with
  | O => Account.accounts a = []
  | S d' =>
      List.length (Account.accounts a) = b
      /\ Forall (complete b d') (Account.accounts a)
  end.

(** [b + b^2 + ... + b^d]. *)
Definition geometric (b d : nat) : nat :=
  list_sum (map (Nat.pow b) (seq 1 d)).

(** The positions of the accounts the walker lists, in its order. *)
Fixpoint walk_paths (a : Account.t) : list (list nat) :=
  map (fun i => [i]) (seq 0 (List.length (Account.accounts a)))
  ++ (fix below (i : nat) (cs : list Account.t) : list (list nat) :=
        match cs with
        | [] => []
        | c :: cs' => map (cons i) (walk_paths c) ++ below (S i) cs'
        end) 0%nat (Account.accounts a).

(** *** Valuation, as the specification words it *)

Definition spec_total_value (journal : Journal.t) (code : Code)
  (buy_date : Date.t) (posts : list Posting.t) : Z :=
  sum_where
    (fun p => Z.abs (Posting.amount p))
    (fun p =>
       Date.eqb (Posting.date p) buy_date
       && code_matches journal code p
       && existsb (fun pn => (Posting.amount pn <? 0)
                             && negb (Posting.id p =? Posting.id pn))
                  (xact_posts journal p))
    posts.

Definition spec_last_year_value (journal : Journal.t) (code : Code)
  (year : Z) (posts : list Posting.t) : Z :=
  sum_where
    Posting.amount
    (fun p =>
       ((year_of p <? year) && code_matches journal code p)
       || ((year_of p =? year) && (0 <? Posting.amount p)
           && code_matches journal code p))
    posts.

Definition spec_next_year_value (journal : Journal.t) (code : Code)
  (year : Z) (posts : list Posting.t) : Z :=
  sum_where
    Posting.amount
    (fun p => (year_of p <=? year) && code_matches journal code p)
    posts.

Definition spec_deprecation_amount (journal : Journal.t) (code : Code)
  (year : Z) (first_post : Posting.t) (posts : list Posting.t) : Z :=
  sum_where
    Posting.amount
    (fun p =>
       (year_of p =? year)
       && negb (Posting.id p =? Posting.id first_post)
       && (Posting.amount p <? 0)
       && code_matches journal code p)
    posts.

(** No posting of the asset's code is dated after the reporting year. *)
Definition no_activity_after (journal : Journal.t) (code : Code) (year : Z)
  (posts : list Posting.t) : Prop :=
  forall p, In p posts -> code_matches journal code p = true ->
            year_of p <= year.

(** *** Bookkeeping of the proofs *)

(** The value [first_post] holds after the [try] statement and what the
    handler printed. *)
Definition first_post_after (candidates : list Posting.t) : first_post_var :=
  match candidates with
  | [post] => Unpacked post
  | _ => StillList candidates
  end.

Definition unpack_printed (candidates : list Posting.t) : list output :=
  match candidates with
  | [] => [Line "need more than 0 values to unpack"]
  | [_] => []
  | _ :: _ :: _ => [Line "too many values to unpack"]
  end.

(** The message of the [ValueError] raised by the unpacking. *)
Definition unpack_message (candidates : list Posting.t) : string :=
  match candidates with
  | [] => "need more than 0 values to unpack"
  | _ => "too many values to unpack"
  end.

(** The object once the first four attributes are assigned. *)
Definition named (account : Account.t) (xact : Transaction.t) (year : Z)
  (o : InventoryItem.t) : InventoryItem.t :=
  InventoryItem.set_year year
    (InventoryItem.set_account (Account.fullname account)
       (InventoryItem.set_item (Account.name account)
          (InventoryItem.set_code (Transaction.code xact) o))).

(** The object once everything but [deprecation_amount] is assigned. *)
Definition valued (journal : Journal.t) (account : Account.t)
  (xact : Transaction.t) (year : Z) (buy_date : Date.t)
  (o : InventoryItem.t) : InventoryItem.t :=
  let code := Transaction.code xact in
  let posts := Account.posts account in
  InventoryItem.set_next_year_value
    (py_sum (next_year_value_terms journal code year posts))
    (InventoryItem.set_last_year_value
       (py_sum (last_year_value_terms journal code year posts))
       (InventoryItem.set_total_value
          (py_sum (total_value_terms journal code buy_date posts))
          (InventoryItem.set_buy_date buy_date
             (named account xact year o)))).

(** The walker's positions below the children [cs], numbered from [i]. *)
Fixpoint paths_below (i : nat) (cs : list Account.t) : list (list nat) :=
  match cs with
  | [] => []
  | c :: cs' => map (cons i) (walk_paths c) ++ paths_below (S i) cs'
  end.

(** How many elements of the set equal [y]. *)
Definition copies (journal : Journal.t) (y : asset) (s : list asset)
  : nat :=
  List.length (filter (asset_eqb journal y) s).

Definition no_double (journal : Journal.t) (s : list asset) : Prop :=
  forall y, (copies journal y s <= 1)%nat.

(** One round of the loop of [get_inventory]. *)
Definition add_siblings (journal : Journal.t) (inventory : list asset)
  (post : Posting.t)
  : list asset :=
  set_union journal inventory
            (set_union journal [] (siblings journal post)).

(** ** Sample journals *)

Module Sample.

Definition INV1 : Code := Some "INV1".

Definition d (y m dd : Z) : Date.t := Date.mk y m dd.

(** Account handles. *)
Definition LAPTOP : account_ref := 0%nat.
Definition CARD : account_ref := 1%nat.
Definition AFA : account_ref := 2%nat.
Definition CASH : account_ref := 3%nat.

Definition leaf (name fullname : string) (posts : list Posting.t)
  : Account.t :=
  Account.mk name fullname [] posts.

(** A journal over the four accounts above; [AfA] is the only name the
    lookup resolves. *)
Definition journal_of (laptop card afa cash : list Posting.t)
  (xacts : list Transaction.t) : Journal.t :=
  let laptop_a := leaf "Laptop" "Assets:Laptop" laptop in
  let card_a := leaf "Card" "Liabilities:Card" card in
  let afa_a := leaf "AfA" "Expenses:AfA" afa in
  let cash_a := leaf "Cash" "Assets:Cash" cash in
  Journal.mk
    (fun pattern => if String.eqb pattern "AfA" then Some afa_a else None)
    (fun r => nth r [laptop_a; card_a; afa_a; cash_a] laptop_a)
    (fun r => nth r xacts (Transaction.mk None [])).

(** The laptop is bought on 2020-01-15 for 1000 on the card and written
    down by 200 on 2021-06-01. *)
Definition buy : Posting.t := Posting.mk 1 (d 2020 1 15) 1000 LAPTOP 0%nat.
Definition pay : Posting.t := Posting.mk 2 (d 2020 1 15) (-1000) CARD 0%nat.
Definition afa21 : Posting.t := Posting.mk 3 (d 2021 6 1) 200 AFA 1%nat.
Definition dep21 : Posting.t := Posting.mk 4 (d 2021 6 1) (-200) LAPTOP 1%nat.

Definition purchase : Transaction.t := Transaction.mk INV1 [buy; pay].
Definition writedown : Transaction.t := Transaction.mk INV1 [afa21; dep21].

Definition laptop_account : Account.t :=
  leaf "Laptop" "Assets:Laptop" [buy; dep21].

Definition journal : Journal.t :=
  journal_of [buy; dep21] [pay] [afa21] [] [purchase; writedown].

(** The same purchase paid from two accounts: 600 on the card and 400 in
    cash. *)
Definition pay_card : Posting.t :=
  Posting.mk 2 (d 2020 1 15) (-600) CARD 0%nat.
Definition pay_cash : Posting.t :=
  Posting.mk 5 (d 2020 1 15) (-400) CASH 0%nat.
Definition split_purchase : Transaction.t :=
  Transaction.mk INV1 [buy; pay_card; pay_cash].

Definition split_journal : Journal.t :=
  journal_of [buy; dep21] [pay_card] [afa21] [pay_cash]
             [split_purchase; writedown].

(** Two write-downs of 100 in 2021, booked as two transactions with the
    code of the purchase. *)
Definition afa21a : Posting.t := Posting.mk 3 (d 2021 6 1) 100 AFA 1%nat.
Definition dep21a : Posting.t :=
  Posting.mk 4 (d 2021 6 1) (-100) LAPTOP 1%nat.
Definition afa21b : Posting.t := Posting.mk 6 (d 2021 12 1) 100 AFA 2%nat.
Definition dep21b : Posting.t :=
  Posting.mk 7 (d 2021 12 1) (-100) LAPTOP 2%nat.
Definition writedown_a : Transaction.t :=
  Transaction.mk INV1 [afa21a; dep21a].
Definition writedown_b : Transaction.t :=
  Transaction.mk INV1 [afa21b; dep21b].

Definition halves_journal : Journal.t :=
  journal_of [buy; dep21a; dep21b] [pay] [afa21a; afa21b] []
             [purchase; writedown_a; writedown_b].

(** One write-down of 200 in 2021 booked with two depreciation postings
    of 120 and 80. *)
Definition afa21x : Posting.t := Posting.mk 3 (d 2021 6 1) 120 AFA 1%nat.
Definition afa21y : Posting.t := Posting.mk 8 (d 2021 6 1) 80 AFA 1%nat.
Definition writedown_parts : Transaction.t :=
  Transaction.mk INV1 [afa21x; afa21y; dep21].

Definition parts_journal : Journal.t :=
  journal_of [buy; dep21] [pay] [afa21x; afa21y] []
             [purchase; writedown_parts].

(** An account that only carries a write-down of 2020: no posting with a
    positive amount, none in 2021. *)
Definition dep20 : Posting.t := Posting.mk 4 (d 2020 6 1) (-5) LAPTOP 1%nat.
Definition afa20 : Posting.t := Posting.mk 3 (d 2020 6 1) 5 AFA 1%nat.
Definition writedown20 : Transaction.t := Transaction.mk INV1 [afa20; dep20].
Definition bare_account : Account.t :=
  leaf "Laptop" "Assets:Laptop" [dep20].
Definition bare_journal : Journal.t :=
  journal_of [dep20] [] [afa20] [] [Transaction.mk None []; writedown20].

(** A complete account tree with two levels of two children each. *)
Definition node (name : string) (children : list Account.t) : Account.t :=
  Account.mk name name children [].
Definition tree22 : Account.t :=
  node "A" [node "A:x" [node "A:x:1" []; node "A:x:2" []];
            node "A:y" [node "A:y:1" []; node "A:y:2" []]].

End Sample.

(** ** Report renderer *)

(** The monad of code that only raises. *)
Definition and_then {A B : Type} (r : result A) (k : A -> result B)
  : result B :=
  match r with
  | Ok a => k a
  | Raise e => Raise e
  end.

(** [[f(x) for x in xs]], stopping at the first exception. *)
Fixpoint map_result {A B : Type} (f : A -> result B) (xs : list A)
  : result (list B) :=
  match xs with
  | [] => Ok []
  | x :: rest =>
      and_then (f x) (fun y =>
      and_then (map_result f rest) (fun ys => Ok (y :: ys)))
  end.

(** [o.name] on an [InventoryItem]: an attribute that was never assigned
    raises [AttributeError]. *)
Definition getattr {A : Type} (name : string)
  (field : InventoryItem.t -> option A) (o : InventoryItem.t) : result A :=
  match field o with
  | Some v => Ok v
  | None =>
      Raise (AttributeError
               (String.append "'InventoryItem' object has no attribute '"
                              (String.append name "'")))
  end.

(** [sorted(xs, key=...)] on elements paired with their keys: ascending
    by key, elements with equal keys in their original order. *)
Fixpoint insert_by_key {A : Type} (x : Date.t * A) (l : list (Date.t * A))
  : list (Date.t * A) :=
  match l with
  | [] => [x]
  | y :: rest =>
      if Date.ltb (fst y) (fst x) then y :: insert_by_key x rest
      else x :: y :: rest
  end.

Fixpoint sorted_by_key {A : Type} (l : list (Date.t * A))
  : list (Date.t * A) :=
  match l with
  | [] => []
  | x :: rest => insert_by_key x (sorted_by_key rest)
  end.

Section Renderer.

(** Library functions: [termcolor.colored(text, color)] (the code of a
    transaction may be [None]), [colored(s, attrs=['bold'])], [str],
    [date.isoformat] and [s.decode('utf-8')]. *)
Variable colored : option string -> string -> string.
Variable colored_bold : string -> string.
Variable str : Z -> string.
Variable isoformat : Date.t -> string.
Variable decode : string -> string.

Definition table_entry (date : string) (code : Code) (item : string)
  (total_value last_year_value deprecation_amount next_year_value : Z)
  : list string :=
  [ date;
    colored code "yellow";
    item;
    colored (Some (str total_value)) "red";
    str last_year_value;
    colored (Some (str deprecation_amount)) "cyan";
    str next_year_value ].

(** The line of one item in [create_table]. *)
Definition item_line (x : InventoryItem.t) : result (list string) :=
  and_then (getattr "buy_date" InventoryItem.buy_date x) (fun buy_date =>
  and_then (getattr "code" InventoryItem.code x) (fun code =>
  and_then (getattr "item" InventoryItem.item x) (fun item =>
  and_then (getattr "total_value" InventoryItem.total_value x) (fun total =>
  and_then (getattr "last_year_value" InventoryItem.last_year_value x)
           (fun last =>
  and_then (getattr "deprecation_amount" InventoryItem.deprecation_amount x)
           (fun deprecation =>
  and_then (getattr "next_year_value" InventoryItem.next_year_value x)
           (fun next =>
  Ok (table_entry (isoformat buy_date) code item
                  total last deprecation next)))))))).

(** [create_table(items, year)]; [colorama.init()] only prepares the
    terminal and leaves no trace in the table. *)
Definition create_table (items : list InventoryItem.t) (year : Z)
  : result (list (list string)) :=
  let color_header := colored_bold in
  let color_footer := colored_bold in
  let header :=
    [ "Kaufdatum"; "Beleg"; "Gerät"; "Kaufpreis";
      String.append "Buchwert " (str (year - 1));
      "Abschreibung";
      String.append "Buchwert " (str year) ] in
  let table := [map color_header header] in
  and_then (map_result (getattr "total_value" InventoryItem.total_value)
                       items) (fun totals =>
  let sum_total_value := py_sum totals in
  and_then (map_result (getattr "last_year_value"
                                InventoryItem.last_year_value)
                       items) (fun lasts =>
  let sum_last_year_value := py_sum lasts in
  and_then (map_result (getattr "deprecation_amount"
                                InventoryItem.deprecation_amount)
                       items) (fun deprecations =>
  let sum_deprecation_amount := py_sum deprecations in
  and_then (map_result (getattr "next_year_value"
                                InventoryItem.next_year_value)
                       items) (fun nexts =>
  let sum_next_year_value := py_sum nexts in
  and_then (map_result (getattr "buy_date" InventoryItem.buy_date) items)
           (fun keys =>
  and_then (map_result item_line
                       (map snd (sorted_by_key (combine keys items))))
           (fun lines =>
  let table := table ++ lines in
  let footer :=
    table_entry "" (Some "") "Gesamt" sum_total_value sum_last_year_value
                sum_deprecation_amount sum_next_year_value in
  let table := table ++ [map color_footer footer] in
  Ok (map (map decode) table))))))).

End Renderer.

(** ** Further vocabulary of the statements *)

(** [a <= b] on dates. *)
Definition date_le (a b : Date.t) : Prop := Date.ltb b a = false.

(** Every attribute of the item has been assigned. *)
Definition assigned (o : InventoryItem.t) : Prop :=
  InventoryItem.code o <> None
  /\ InventoryItem.item o <> None
  /\ InventoryItem.account o <> None
  /\ InventoryItem.year o <> None
  /\ InventoryItem.buy_date o <> None
  /\ InventoryItem.total_value o <> None
  /\ InventoryItem.last_year_value o <> None
  /\ InventoryItem.next_year_value o <> None
  /\ InventoryItem.deprecation_amount o <> None.

Definition is_line (o : output) : bool :=
  match o with
  | Line _ => true
  | Table _ _ => false
  end.

(** A sibling of [p] that funds it: a negative amount on another
    posting of the transaction. *)
Definition funds (p pn : Posting.t) : bool :=
  (Posting.amount pn <? 0) && negb (Posting.id p =? Posting.id pn).

(** The negative entries of the reporting year under the code. *)
Definition written_down (journal : Journal.t) (code : Code) (year : Z)
  (posts : list Posting.t) : Z :=
  sum_where Posting.amount
            (fun p => (year_of p =? year) && (Posting.amount p <? 0)
                      && code_matches journal code p)
            posts.

(** Sum of an attribute over the items that carry it. *)
Definition attr_sum (field : InventoryItem.t -> option Z)
  (items : list InventoryItem.t) : Z :=
  py_sum (map (fun i => match field i with Some v => v | None => 0 end)
              items).

(** [x] is bought no later than [y]. *)
Definition bought_before (x y : InventoryItem.t) : Prop :=
  forall dx dy,
    InventoryItem.buy_date x = Some dx ->
    InventoryItem.buy_date y = Some dy ->
    date_le dx dy.

(** Order of keyed elements in [sorted]. *)
Definition key_le {A : Type} (x y : Date.t * A) : Prop :=
  date_le (fst x) (fst y).

(** The item of the laptop in the report of 2021. *)
Definition sample_item : InventoryItem.t :=
  InventoryItem.mk (Some Sample.INV1) (Some "Laptop") (Some "Assets:Laptop")
                   (Some 2021) (Some (Sample.d 2020 1 15))
                   (Some 1000) (Some 1000) (Some 800) (Some (-200)).

(** A printer bought on 2021-03-01 for 300 and written down by 50 in
    2021. *)
Definition sample_item_late : InventoryItem.t :=
  InventoryItem.mk (Some (Some "INV2")) (Some "Printer")
                   (Some "Assets:Printer") (Some 2021)
                   (Some (Sample.d 2021 3 1))
                   (Some 300) (Some 300) (Some 250) (Some (-50)).

(** * Properties *)

(** ** Sums *)

Lemma fold_left_add_acc (xs : list Z) (a : Z) :
  fold_left Z.add xs a = a + py_sum xs.
Proof.
  unfold py_sum. revert a.
  induction xs as [|x xs IH]; intros a; simpl.
  - lia.
  - rewrite (IH (a + x)), (IH x). lia.
Qed.

Lemma py_sum_cons (x : Z) (xs : list Z) : py_sum (x :: xs) = x + py_sum xs.
Proof. unfold py_sum at 1. simpl. apply fold_left_add_acc. Qed.

Lemma py_sum_app (xs ys : list Z) : py_sum (xs ++ ys) = py_sum xs + py_sum ys.
Proof.
  induction xs as [|x xs IH]; simpl.
  - reflexivity.
  - rewrite !py_sum_cons, IH. lia.
Qed.

Lemma py_sum_filter (f : Posting.t -> Z) (keep : Posting.t -> bool)
  (posts : list Posting.t) :
  py_sum (map f (filter keep posts)) = sum_where f keep posts.
Proof.
  induction posts as [|p posts IH]; simpl.
  - reflexivity.
  - destruct (keep p); simpl.
    + rewrite py_sum_cons, IH. reflexivity.
    + exact IH.
Qed.

(** Two selections that agree on the listed postings have the same sum. *)
Lemma sum_where_ext (f : Posting.t -> Z) (keep keep' : Posting.t -> bool)
  (posts : list Posting.t) :
  (forall p, In p posts -> keep p = keep' p) ->
  sum_where f keep posts = sum_where f keep' posts.
Proof.
  induction posts as [|p posts IH]; intros H; simpl.
  - reflexivity.
  - rewrite (H p (or_introl eq_refl)), IH.
    + reflexivity.
    + intros q Hq. apply H. right. exact Hq.
Qed.

(** A selection split in two parts whose contributions add up posting by
    posting. *)
Lemma sum_where_split (f : Posting.t -> Z) (all part1 part2 : Posting.t -> bool)
  (posts : list Posting.t) :
  (forall p, In p posts ->
             (if all p then f p else 0)
             = (if part1 p then f p else 0) + (if part2 p then f p else 0)) ->
  sum_where f all posts = sum_where f part1 posts + sum_where f part2 posts.
Proof.
  induction posts as [|p posts IH]; intros H; simpl.
  - reflexivity.
  - assert (Hp := H p (or_introl eq_refl)).
    assert (Hrest : sum_where f all posts
                    = sum_where f part1 posts + sum_where f part2 posts).
    { apply IH. intros q Hq. apply H. right. exact Hq. }
    destruct (all p), (part1 p), (part2 p); lia.
Qed.

Lemma sum_where_none (f : Posting.t -> Z) (keep : Posting.t -> bool)
  (posts : list Posting.t) :
  (forall p, In p posts -> keep p = false) -> sum_where f keep posts = 0.
Proof.
  induction posts as [|p posts IH]; intros H; simpl.
  - reflexivity.
  - rewrite (H p (or_introl eq_refl)). apply IH.
    intros q Hq. apply H. right. exact Hq.
Qed.

(** ** Dates and codes *)

Lemma Date_eqb_eq (a b : Date.t) : Date.eqb a b = true <-> a = b.
Proof.
  destruct a as [y m dd], b as [y' m' dd']. unfold Date.eqb; simpl.
  rewrite !andb_true_iff, !Z.eqb_eq. split.
  - intros [[-> ->] ->]. reflexivity.
  - intros H. injection H as -> -> ->. auto.
Qed.

Lemma code_eqb_eq (a b : Code) : code_eqb a b = true <-> a = b.
Proof.
  destruct a as [x|], b as [y|]; simpl; try (split; congruence).
  rewrite String.eqb_eq. split; congruence.
Qed.

(** ** One run of [__init__] *)

Lemma unpack_first_post_run (candidates : list Posting.t) (s : state) :
  unpack_first_post candidates s
  = (Ok (first_post_after candidates),
     mkState (self s) (stdout s ++ unpack_printed candidates)).
Proof.
  destruct candidates as [|p [|q rest]]; simpl; try reflexivity.
  unfold ret. rewrite app_nil_r. destruct s; reflexivity.
Qed.

Lemma init_run_no_code (journal : Journal.t) (account : Account.t)
  (xact : Transaction.t) (year : Z) (s : state) :
  code_dates journal (Transaction.code xact) (Account.posts account) = [] ->
  init journal account xact year s
  = (Raise (ValueError "min() arg is an empty sequence"),
     mkState (named account xact year (self s)) (stdout s)).
Proof.
  intros H. unfold init, bind, setattr, lift. simpl. rewrite H. reflexivity.
Qed.

Lemma init_run_buy_date (journal : Journal.t) (account : Account.t)
  (xact : Transaction.t) (year : Z) (s : state) (buy_date : Date.t) :
  py_min (code_dates journal (Transaction.code xact) (Account.posts account))
  = Ok buy_date ->
  let code := Transaction.code xact in
  let posts := Account.posts account in
  let candidates := first_post_candidates journal code buy_date posts in
  let o := valued journal account xact year buy_date (self s) in
  let out := stdout s ++ unpack_printed candidates in
  init journal account xact year s
  = match deprecation_terms journal code year
                            (first_post_after candidates) posts with
    | Ok terms =>
        (Ok tt,
         mkState (InventoryItem.set_deprecation_amount (py_sum terms) o) out)
    | Raise e => (Raise e, mkState o out)
    end.
Proof.
  intros H. cbv zeta.
  unfold init, bind, setattr, lift. cbn [self stdout]. rewrite H.
  rewrite unpack_first_post_run. cbn [self stdout].
  destruct (deprecation_terms _ _ _ _ _); reflexivity.
Qed.

Lemma filter_nil_existsb {A : Type} (f : A -> bool) (l : list A) :
  filter f l = [] <-> existsb f l = false.
Proof.
  induction l as [|x l IH]; simpl.
  - tauto.
  - destruct (f x); simpl.
    + split; discriminate.
    + exact IH.
Qed.

Lemma code_dates_nil (journal : Journal.t) (code : Code)
  (posts : list Posting.t) :
  code_dates journal code posts = []
  <-> existsb (code_matches journal code) posts = false.
Proof.
  unfold code_dates. rewrite <- filter_nil_existsb.
  unfold code_matches.
  destruct (filter _ posts); simpl; split; congruence.
Qed.

Lemma py_min_defined (ds : list Date.t) :
  ds <> [] -> exists m, py_min ds = Ok m.
Proof.
  destruct ds as [|d0 rest]; [congruence | intros _].
  eexists. reflexivity.
Qed.

Lemma py_min_Ok_nonempty (ds : list Date.t) (m : Date.t) :
  py_min ds = Ok m -> ds <> [].
Proof. destruct ds; simpl; congruence. Qed.

(** ** The generator of [deprecation_amount] *)

Lemma deprecation_terms_unpacked (journal : Journal.t) (code : Code)
  (year : Z) (first_post : Posting.t) (posts : list Posting.t) :
  deprecation_terms journal code year (Unpacked first_post) posts
  = Ok (map Posting.amount
            (filter
               (fun p =>
                  (year_of p =? year)
                  && negb (Posting.id p =? Posting.id first_post)
                  && (Posting.amount p <? 0)
                  && code_matches journal code p)
               posts)).
Proof.
  induction posts as [|p posts IH]; simpl.
  - reflexivity.
  - rewrite IH. unfold year_of, code_matches.
    destruct (Date.year (Posting.date p) =? year); simpl.
    + destruct (negb (Posting.id p =? Posting.id first_post)
                && (Posting.amount p <? 0)
                && code_eqb (xact_code journal p) code); reflexivity.
    + reflexivity.
Qed.

Lemma deprecation_terms_list (journal : Journal.t) (code : Code)
  (year : Z) (candidates posts : list Posting.t) :
  deprecation_terms journal code year (StillList candidates) posts
  = if existsb (fun p => year_of p =? year) posts
    then Raise (AttributeError "'list' object has no attribute 'id'")
    else Ok [].
Proof.
  induction posts as [|p posts IH]; simpl.
  - reflexivity.
  - unfold year_of at 1.
    destruct (Date.year (Posting.date p) =? year); simpl.
    + reflexivity.
    + exact IH.
Qed.

Lemma first_post_after_not_single (candidates : list Posting.t) :
  (forall p, candidates <> [p]) ->
  first_post_after candidates = StillList candidates
  /\ unpack_printed candidates = [Line (unpack_message candidates)].
Proof.
  destruct candidates as [|p [|q rest]]; intros H; simpl.
  - split; reflexivity.
  - exfalso. apply (H p). reflexivity.
  - split; reflexivity.
Qed.

(** With distinct identifiers no written-down posting shares the
    identifier of the capitalising one. *)
Lemma first_post_not_negative (journal : Journal.t) (code : Code)
  (buy_date : Date.t) (first_post : Posting.t) (posts : list Posting.t) :
  ids_identify posts ->
  In first_post (first_post_candidates journal code buy_date posts) ->
  forall p, In p posts ->
            negb (Posting.id p =? Posting.id first_post)
            && (Posting.amount p <? 0)
            = (Posting.amount p <? 0).
Proof.
  intros Hids Hfp p Hp.
  unfold first_post_candidates in Hfp. apply filter_In in Hfp.
  destruct Hfp as [Hin Hcond].
  apply andb_true_iff in Hcond. destruct Hcond as [_ Hpos].
  apply Z.ltb_lt in Hpos.
  destruct (Posting.id p =? Posting.id first_post) eqn:E; simpl.
  - apply Z.eqb_eq in E. rewrite (Hids p first_post Hp Hin E).
    symmetry. apply Z.ltb_ge. lia.
  - reflexivity.
Qed.

(** ** Construction without a posting of the code *)

(** C9. When no posting of the account belongs to a transaction with the
    code of the triggering transaction, [min] is applied to an empty
    sequence: [__init__] raises [ValueError], nothing handles it inside
    the constructor, and the object carries [code], [item], [account]
    and [year] and no other attribute. *)
Theorem init_raises_without_code_match (journal : Journal.t)
  (account : Account.t) (xact : Transaction.t) (year : Z)
  (out : list output) :
  (forall p, In p (Account.posts account) ->
             xact_code journal p <> Transaction.code xact) ->
  let e := ValueError "min() arg is an empty sequence" in
  new journal account xact year out = (Raise e, out)
  /\ exists o,
      init journal account xact year (mkState InventoryItem.fresh out)
      = (Raise e, mkState o out)
      /\ InventoryItem.code o = Some (Transaction.code xact)
      /\ InventoryItem.item o = Some (Account.name account)
      /\ InventoryItem.account o = Some (Account.fullname account)
      /\ InventoryItem.year o = Some year
      /\ InventoryItem.buy_date o = None
      /\ InventoryItem.total_value o = None
      /\ InventoryItem.last_year_value o = None
      /\ InventoryItem.next_year_value o = None
      /\ InventoryItem.deprecation_amount o = None.
Proof.
  intros H e.
  assert (Hnil : code_dates journal (Transaction.code xact)
                            (Account.posts account) = []).
  { apply code_dates_nil.
    destruct (existsb _ _) eqn:E; [|reflexivity].
    apply existsb_exists in E. destruct E as [p [Hp Hc]].
    apply code_eqb_eq in Hc. exfalso. exact (H p Hp Hc). }
  split.
  - unfold new. rewrite (init_run_no_code _ _ _ _ _ Hnil). reflexivity.
  - eexists. split.
    + apply init_run_no_code. exact Hnil.
    + cbn. repeat split; reflexivity.
Qed.

Lemma init_raises_without_code_match_witness :
  new Sample.bare_journal Sample.bare_account (Transaction.mk None []) 2020 []
  = (Raise (ValueError "min() arg is an empty sequence"), []).
Proof.
  refine (proj1 (init_raises_without_code_match
                   Sample.bare_journal Sample.bare_account
                   (Transaction.mk None []) 2020 [] _)).
  intros p [<- | []]. vm_compute. discriminate.
Defined.

(** ** Book value at the start of the year *)

(** C3. [last_year_value] is the sum of the amounts of the account's
    postings with (an earlier year and the code) or (the reporting year,
    a positive amount and the code): everything of the code before the
    year plus the positive entries of the year, and no negative entry of
    the year.  The attribute is assigned as soon as a buy date exists,
    and every constructed item carries it. *)
Theorem last_year_value_spec (journal : Journal.t) (account : Account.t)
  (xact : Transaction.t) (year : Z) (out : list output) :
  let code := Transaction.code xact in
  let posts := Account.posts account in
  let final :=
    self (snd (init journal account xact year
                    (mkState InventoryItem.fresh out))) in
  InventoryItem.last_year_value final
  = (if existsb (code_matches journal code) posts
     then Some (spec_last_year_value journal code year posts)
     else None)
  /\ spec_last_year_value journal code year posts
     = sum_where Posting.amount
                 (fun p => (year_of p <? year) && code_matches journal code p)
                 posts
       + sum_where Posting.amount
                   (fun p => (year_of p =? year) && (0 <? Posting.amount p)
                             && code_matches journal code p)
                   posts
  /\ forall item out',
      new journal account xact year out = (Ok item, out') ->
      InventoryItem.last_year_value item
      = Some (spec_last_year_value journal code year posts).
Proof.
  intros code posts final.
  assert (Hterms : py_sum (last_year_value_terms journal code year posts)
                   = spec_last_year_value journal code year posts).
  { unfold last_year_value_terms, spec_last_year_value.
    rewrite py_sum_filter. reflexivity. }
  assert (Hfinal : InventoryItem.last_year_value final
                   = if existsb (code_matches journal code) posts
                     then Some (spec_last_year_value journal code year posts)
                     else None).
  { subst final.
    destruct (existsb (code_matches journal code) posts) eqn:E.
    - destruct (py_min_defined (code_dates journal code posts)) as [m Hm].
      { intros Hnil. apply code_dates_nil in Hnil.
        fold code posts in E. congruence. }
      rewrite (init_run_buy_date _ _ _ _ _ _ Hm).
      destruct (deprecation_terms _ _ _ _ _); cbn;
        fold code posts; rewrite Hterms; reflexivity.
    - apply code_dates_nil in E.
      rewrite (init_run_no_code _ _ _ _ _ E). reflexivity. }
  split; [exact Hfinal|]. split.
  - unfold spec_last_year_value. apply sum_where_split.
    intros p _.
    destruct (year_of p <? year) eqn:E1, (year_of p =? year) eqn:E2,
             (0 <? Posting.amount p), (code_matches journal code p);
      simpl; lia.
  - intros item out' Hnew. unfold new in Hnew.
    subst final.
    destruct (init journal account xact year
                   (mkState InventoryItem.fresh out)) as [[u|e] s] eqn:E;
      [|discriminate].
    injection Hnew as <- _. cbn [snd] in Hfinal.
    destruct (existsb (code_matches journal code) posts) eqn:Ex;
      [exact Hfinal|].
    apply code_dates_nil in Ex.
    rewrite (init_run_no_code _ _ _ _ _ Ex) in E. discriminate.
Qed.

Lemma last_year_value_spec_witness :
  exists item,
    new Sample.journal Sample.laptop_account Sample.writedown 2021 []
    = (Ok item, [])
    /\ InventoryItem.last_year_value item = Some 1000.
Proof.
  eexists. split.
  - reflexivity.
  - exact (proj2 (proj2 (last_year_value_spec
                           Sample.journal Sample.laptop_account
                           Sample.writedown 2021 []))
                 _ [] eq_refl).
Defined.

(** ** Depreciation of the year *)

(** Construction succeeds once [first_post] is unpacked. *)
Lemma new_with_first_post (journal : Journal.t) (account : Account.t)
  (xact : Transaction.t) (year : Z) (buy_date : Date.t)
  (first_post : Posting.t) (out : list output) :
  let code := Transaction.code xact in
  let posts := Account.posts account in
  py_min (code_dates journal code posts) = Ok buy_date ->
  first_post_candidates journal code buy_date posts = [first_post] ->
  new journal account xact year out
  = (Ok (InventoryItem.set_deprecation_amount
           (spec_deprecation_amount journal code year first_post posts)
           (valued journal account xact year buy_date InventoryItem.fresh)),
     out).
Proof.
  intros code posts Hmin Hfp. unfold new.
  rewrite (init_run_buy_date _ _ _ _ _ _ Hmin).
  fold code posts. rewrite Hfp. cbn [first_post_after unpack_printed].
  rewrite deprecation_terms_unpacked, py_sum_filter.
  cbn [self stdout]. rewrite app_nil_r. reflexivity.
Qed.

(** C4. When exactly one posting has the buy date, the code and a
    positive amount, the item is constructed and its
    [deprecation_amount] is the sum of the amounts of the account's
    postings of the reporting year with another identifier than that
    posting, a negative amount and the code. *)
Theorem deprecation_amount_spec (journal : Journal.t) (account : Account.t)
  (xact : Transaction.t) (year : Z) (buy_date : Date.t)
  (first_post : Posting.t) (out : list output) :
  let code := Transaction.code xact in
  let posts := Account.posts account in
  py_min (code_dates journal code posts) = Ok buy_date ->
  first_post_candidates journal code buy_date posts = [first_post] ->
  exists item,
    new journal account xact year out = (Ok item, out)
    /\ InventoryItem.deprecation_amount item
       = Some (sum_where
                 Posting.amount
                 (fun p =>
                    (year_of p =? year)
                    && negb (Posting.id p =? Posting.id first_post)
                    && (Posting.amount p <? 0)
                    && code_matches journal code p)
                 posts).
Proof.
  intros code posts Hmin Hfp. eexists. split.
  - apply (new_with_first_post _ _ _ _ _ _ _ Hmin Hfp).
  - reflexivity.
Qed.

Lemma deprecation_amount_spec_witness :
  exists item,
    new Sample.journal Sample.laptop_account Sample.writedown 2021 []
    = (Ok item, [])
    /\ InventoryItem.deprecation_amount item = Some (-200).
Proof.
  exact (deprecation_amount_spec
           Sample.journal Sample.laptop_account Sample.writedown 2021
           (Sample.d 2020 1 15) Sample.buy [] eq_refl eq_refl).
Defined.

(** C10. When moreover identifiers identify the account's postings, the
    test on the identifier excludes nothing: [first_post] has a positive
    amount and only negative amounts are summed, so
    [deprecation_amount] is the sum of the amounts of all postings of
    the reporting year with a negative amount and the code. *)
Theorem deprecation_amount_excludes_nothing (journal : Journal.t)
  (account : Account.t) (xact : Transaction.t) (year : Z)
  (buy_date : Date.t) (first_post : Posting.t) (out : list output) :
  let code := Transaction.code xact in
  let posts := Account.posts account in
  py_min (code_dates journal code posts) = Ok buy_date ->
  first_post_candidates journal code buy_date posts = [first_post] ->
  ids_identify posts ->
  exists item,
    new journal account xact year out = (Ok item, out)
    /\ InventoryItem.deprecation_amount item
       = Some (sum_where
                 Posting.amount
                 (fun p =>
                    (year_of p =? year)
                    && (Posting.amount p <? 0)
                    && code_matches journal code p)
                 posts).
Proof.
  intros code posts Hmin Hfp Hids. eexists. split.
  - apply (new_with_first_post _ _ _ _ _ _ _ Hmin Hfp).
  - cbn. f_equal. unfold spec_deprecation_amount.
    apply sum_where_ext. intros p Hp.
    assert (Hin : In first_post
                     (first_post_candidates journal code buy_date posts)).
    { rewrite Hfp. left. reflexivity. }
    assert (H := first_post_not_negative _ _ _ _ _ Hids Hin p Hp).
    fold code.
    destruct (year_of p =? year),
             (negb (Posting.id p =? Posting.id first_post)),
             (Posting.amount p <? 0), (code_matches journal code p);
      simpl in *; congruence.
Qed.

Lemma sample_ids_identify : ids_identify [Sample.buy; Sample.dep21].
Proof.
  intros p q [<- | [<- | []]] [<- | [<- | []]] H;
    try reflexivity; vm_compute in H; discriminate.
Qed.

Lemma deprecation_amount_excludes_nothing_witness :
  exists item,
    new Sample.journal Sample.laptop_account Sample.writedown 2021 []
    = (Ok item, [])
    /\ InventoryItem.deprecation_amount item = Some (-200).
Proof.
  exact (deprecation_amount_excludes_nothing
           Sample.journal Sample.laptop_account Sample.writedown 2021
           (Sample.d 2020 1 15) Sample.buy [] eq_refl eq_refl
           sample_ids_identify).
Defined.

(** ** The book value identity *)

Lemma py_sum_next_year_value (journal : Journal.t) (code : Code) (year : Z)
  (posts : list Posting.t) :
  py_sum (next_year_value_terms journal code year posts)
  = spec_next_year_value journal code year posts.
Proof. unfold next_year_value_terms. rewrite py_sum_filter. reflexivity. Qed.

Lemma py_sum_last_year_value (journal : Journal.t) (code : Code) (year : Z)
  (posts : list Posting.t) :
  py_sum (last_year_value_terms journal code year posts)
  = spec_last_year_value journal code year posts.
Proof. unfold last_year_value_terms. rewrite py_sum_filter. reflexivity. Qed.

(** Year-end value = opening value + the negative entries of the year. *)
Lemma next_year_value_split (journal : Journal.t) (code : Code) (year : Z)
  (posts : list Posting.t) :
  spec_next_year_value journal code year posts
  = spec_last_year_value journal code year posts
    + sum_where Posting.amount
                (fun p => (year_of p =? year) && (Posting.amount p <? 0)
                          && code_matches journal code p)
                posts.
Proof.
  unfold spec_next_year_value, spec_last_year_value.
  apply sum_where_split. intros p _.
  destruct (year_of p <=? year) eqn:E1, (year_of p <? year) eqn:E2,
           (year_of p =? year) eqn:E3, (0 <? Posting.amount p) eqn:E4,
           (Posting.amount p <? 0) eqn:E5, (code_matches journal code p);
    simpl; lia.
Qed.

(** C1. For an asset without posting of its code after the reporting
    year, and with identifiers that identify the account's postings (the
    data model's unique posting identifier), every constructed item has
    [next_year_value = last_year_value + deprecation_amount]. *)
Theorem book_value_identity (journal : Journal.t) (account : Account.t)
  (xact : Transaction.t) (year : Z) (out out' : list output)
  (item : InventoryItem.t) :
  let code := Transaction.code xact in
  let posts := Account.posts account in
  ids_identify posts ->
  no_activity_after journal code year posts ->
  new journal account xact year out = (Ok item, out') ->
  exists last deprecation next,
    InventoryItem.last_year_value item = Some last
    /\ InventoryItem.deprecation_amount item = Some deprecation
    /\ InventoryItem.next_year_value item = Some next
    /\ next = last + deprecation.
Proof.
  intros code posts Hids _ Hnew.
  destruct (existsb (code_matches journal code) posts) eqn:Ex.
  2:{ apply code_dates_nil in Ex. unfold new in Hnew.
      rewrite (init_run_no_code _ _ _ _ _ Ex) in Hnew. discriminate. }
  destruct (py_min_defined (code_dates journal code posts)) as [bd Hmin].
  { intros Hnil. apply code_dates_nil in Hnil. congruence. }
  assert (Hsplit := next_year_value_split journal code year posts).
  destruct (first_post_candidates journal code bd posts)
    as [|fp [|q rest]] eqn:Hc.
  - (* no candidate: the list stays in [first_post] *)
    unfold new in Hnew. rewrite (init_run_buy_date _ _ _ _ _ _ Hmin) in Hnew.
    fold code posts in Hnew. rewrite Hc in Hnew.
    cbn [first_post_after] in Hnew.
    rewrite deprecation_terms_list in Hnew.
    destruct (existsb (fun p => year_of p =? year) posts) eqn:Ey;
      [discriminate|].
    injection Hnew as <- _. cbn. fold code posts.
    rewrite py_sum_last_year_value, py_sum_next_year_value.
    do 3 eexists. repeat (split; [reflexivity|]).
    rewrite Hsplit, sum_where_none; [reflexivity|].
    intros p Hp.
    assert (Hy : (year_of p =? year) = false).
    { destruct (year_of p =? year) eqn:E; [|reflexivity].
      assert (existsb (fun p => year_of p =? year) posts = true)
        by (apply existsb_exists; exists p; auto).
      congruence. }
    rewrite Hy. reflexivity.
  - (* exactly one candidate *)
    rewrite (new_with_first_post _ _ _ _ _ _ _ Hmin Hc) in Hnew.
    injection Hnew as <- _. cbn. fold code posts.
    rewrite py_sum_last_year_value, py_sum_next_year_value.
    do 3 eexists. repeat (split; [reflexivity|]).
    rewrite Hsplit. f_equal. unfold spec_deprecation_amount.
    apply sum_where_ext. intros p Hp.
    assert (Hin : In fp (first_post_candidates journal code bd posts)).
    { rewrite Hc. left. reflexivity. }
    assert (H := first_post_not_negative _ _ _ _ _ Hids Hin p Hp).
    destruct (year_of p =? year),
             (negb (Posting.id p =? Posting.id fp)),
             (Posting.amount p <? 0), (code_matches journal code p);
      simpl in *; congruence.
  - (* several candidates: the list stays in [first_post] *)
    unfold new in Hnew. rewrite (init_run_buy_date _ _ _ _ _ _ Hmin) in Hnew.
    fold code posts in Hnew. rewrite Hc in Hnew.
    cbn [first_post_after] in Hnew.
    rewrite deprecation_terms_list in Hnew.
    destruct (existsb (fun p => year_of p =? year) posts) eqn:Ey;
      [discriminate|].
    injection Hnew as <- _. cbn. fold code posts.
    rewrite py_sum_last_year_value, py_sum_next_year_value.
    do 3 eexists. repeat (split; [reflexivity|]).
    rewrite Hsplit, sum_where_none; [reflexivity|].
    intros p Hp.
    assert (Hy : (year_of p =? year) = false).
    { destruct (year_of p =? year) eqn:E; [|reflexivity].
      assert (existsb (fun p => year_of p =? year) posts = true)
        by (apply existsb_exists; exists p; auto).
      congruence. }
    rewrite Hy. reflexivity.
Qed.

Lemma sample_no_activity_after :
  no_activity_after Sample.journal Sample.INV1 2021 [Sample.buy; Sample.dep21].
Proof.
  intros p [<- | [<- | []]] _; vm_compute; discriminate.
Qed.

Lemma book_value_identity_witness :
  exists item last deprecation next,
    new Sample.journal Sample.laptop_account Sample.writedown 2021 []
    = (Ok item, [])
    /\ InventoryItem.last_year_value item = Some last
    /\ InventoryItem.deprecation_amount item = Some deprecation
    /\ InventoryItem.next_year_value item = Some next
    /\ next = last + deprecation.
Proof.
  eexists.
  destruct (book_value_identity
              Sample.journal Sample.laptop_account Sample.writedown 2021
              [] [] _ sample_ids_identify sample_no_activity_after eq_refl)
    as [last [deprecation [next H]]].
  exists last, deprecation, next. split; [reflexivity | exact H].
Defined.

(** ** Failure of the [first_post] lookup *)

(** C7, as the code behaves.  When a buy date exists and the number of
    postings with the buy date, the code and a positive amount is not
    one, the [ValueError] of the unpacking is handled and its message
    printed, [first_post] keeps the list, and [total_value],
    [last_year_value] and [next_year_value] are assigned.  If some
    posting of the account is dated in the reporting year, the lookup of
    [first_post.id] raises [AttributeError] and [deprecation_amount] is
    never assigned; if none is, the lookup is never evaluated and
    construction completes with [deprecation_amount = 0]. *)
Theorem first_post_failure (journal : Journal.t) (account : Account.t)
  (xact : Transaction.t) (year : Z) (buy_date : Date.t)
  (out : list output) :
  let code := Transaction.code xact in
  let posts := Account.posts account in
  py_min (code_dates journal code posts) = Ok buy_date ->
  (forall p, first_post_candidates journal code buy_date posts <> [p]) ->
  let o := valued journal account xact year buy_date InventoryItem.fresh in
  let message :=
    match first_post_candidates journal code buy_date posts with
    | [] => "need more than 0 values to unpack"
    | _ => "too many values to unpack"
    end in
  InventoryItem.deprecation_amount o = None
  /\ init journal account xact year (mkState InventoryItem.fresh out)
     = if existsb (fun p => year_of p =? year) posts
       then (Raise (AttributeError "'list' object has no attribute 'id'"),
             mkState o (out ++ [Line message]))
       else (Ok tt,
             mkState (InventoryItem.set_deprecation_amount 0 o)
                     (out ++ [Line message])).
Proof.
  intros code posts Hmin Hnot o message. split; [reflexivity|].
  destruct (first_post_after_not_single _ Hnot) as [Hlist Hmsg].
  rewrite (init_run_buy_date _ _ _ _ _ _ Hmin). fold code posts.
  rewrite Hlist, Hmsg, deprecation_terms_list. cbn [self stdout].
  destruct (existsb (fun p => year_of p =? year) posts); reflexivity.
Qed.

Lemma first_post_failure_witness :
  init Sample.bare_journal Sample.bare_account Sample.writedown20 2020
       (mkState InventoryItem.fresh [])
  = (Raise (AttributeError "'list' object has no attribute 'id'"),
     mkState (valued Sample.bare_journal Sample.bare_account
                     Sample.writedown20 2020 (Sample.d 2020 6 1)
                     InventoryItem.fresh)
             [Line "need more than 0 values to unpack"]).
Proof.
  destruct (first_post_failure
              Sample.bare_journal Sample.bare_account Sample.writedown20
              2020 (Sample.d 2020 6 1) [] eq_refl
              (fun p (H : [] = [p]) => nil_cons H))
    as [_ H].
  rewrite H. reflexivity.
Defined.

(** C7, as stated, fails: the account below has no posting with a
    positive amount, so the lookup finds nothing, and none in 2021, so
    the construction for 2021 returns an item after printing the
    message. *)
Lemma first_post_failure_may_complete :
  py_min (code_dates Sample.bare_journal Sample.INV1
                     (Account.posts Sample.bare_account))
  = Ok (Sample.d 2020 6 1)
  /\ first_post_candidates Sample.bare_journal Sample.INV1
                           (Sample.d 2020 6 1)
                           (Account.posts Sample.bare_account) = []
  /\ (exists item,
         new Sample.bare_journal Sample.bare_account Sample.writedown20
             2021 []
         = (Ok item, [Line "need more than 0 values to unpack"])
         /\ InventoryItem.deprecation_amount item = Some 0)
  /\ ~ (exists e out',
           new Sample.bare_journal Sample.bare_account Sample.writedown20
               2021 [] = (Raise e, out')).
Proof.
  split; [reflexivity|]. split; [reflexivity|]. split.
  - eexists. split; reflexivity.
  - intros [e [out' H]]. vm_compute in H. discriminate.
Qed.

(** ** Purchase price *)

Lemma total_value_inner (b : bool) (v : Z) (g : Posting.t -> bool)
  (siblings : list Posting.t) :
  py_sum (flat_map (fun pn => if b && g pn then [v] else []) siblings)
  = if b then v * Z.of_nat (List.length (filter g siblings)) else 0.
Proof.
  induction siblings as [|pn siblings IH].
  - destruct b; cbn; lia.
  - cbn [flat_map filter]. rewrite py_sum_app, IH. destruct b.
    + cbn [andb]. destruct (g pn).
      * cbn [List.length]. rewrite Nat2Z.inj_succ, py_sum_cons.
        change (py_sum []) with 0. lia.
      * change (py_sum []) with 0. lia.
    + reflexivity.
Qed.

(** The generator of [total_value] yields [abs(p.amount)] once for every
    sibling with a negative amount and another identifier. *)
Lemma total_value_multiplicity (journal : Journal.t) (code : Code)
  (buy_date : Date.t) (posts : list Posting.t) :
  py_sum (total_value_terms journal code buy_date posts)
  = sum_where
      (fun p =>
         Z.abs (Posting.amount p)
         * Z.of_nat
             (List.length
                (filter (fun pn => (Posting.amount pn <? 0)
                                   && negb (Posting.id p =? Posting.id pn))
                        (xact_posts journal p))))
      (fun p => Date.eqb (Posting.date p) buy_date
                && code_matches journal code p)
      posts.
Proof.
  induction posts as [|p posts IH].
  - reflexivity.
  - unfold total_value_terms in *. simpl flat_map.
    rewrite py_sum_app, IH. cbn [sum_where].
    rewrite (flat_map_ext _
               (fun pn =>
                  if (Date.eqb (Posting.date p) buy_date
                      && code_eqb (xact_code journal p) code)
                     && ((Posting.amount pn <? 0)
                         && negb (Posting.id p =? Posting.id pn))
                  then [Z.abs (Posting.amount p)] else [])).
    + rewrite total_value_inner. unfold code_matches.
      destruct (Date.eqb (Posting.date p) buy_date
                && code_eqb (xact_code journal p) code); reflexivity.
    + intros pn. rewrite andb_assoc. reflexivity.
Qed.

(** C2 on the code.  The generator adds [abs(p.amount)] once for every
    sibling with a negative amount and another identifier, not once per
    qualifying posting.  At a purchase paid from two accounts (the
    laptop capitalised at 1000, against 600 on the card and 400 in cash)
    one posting of the account qualifies and such a sibling exists, so
    the sum the claim describes is 1000; the code sets [total_value] to
    2000. *)
Theorem total_value_per_sibling :
  (forall journal code buy_date posts,
      py_sum (total_value_terms journal code buy_date posts)
      = sum_where
          (fun p =>
             Z.abs (Posting.amount p)
             * Z.of_nat
                 (List.length
                    (filter
                       (fun pn => (Posting.amount pn <? 0)
                                  && negb (Posting.id p =? Posting.id pn))
                       (xact_posts journal p))))
          (fun p => Date.eqb (Posting.date p) buy_date
                    && code_matches journal code p)
          posts)
  /\ (exists item,
         new Sample.split_journal Sample.laptop_account Sample.writedown
             2021 []
         = (Ok item, [])
         /\ InventoryItem.buy_date item = Some (Sample.d 2020 1 15)
         /\ InventoryItem.total_value item = Some 2000)
  /\ spec_total_value Sample.split_journal Sample.INV1 (Sample.d 2020 1 15)
                      (Account.posts Sample.laptop_account) = 1000.
Proof.
  split; [exact total_value_multiplicity|]. split.
  - eexists. split; [reflexivity|]. split; reflexivity.
  - reflexivity.
Qed.

(** ** Account tree walker *)

Section Walker.
Local Open Scope nat_scope.

Lemma get_sub_accounts_eq (a : Account.t) :
  get_sub_accounts a
  = Account.accounts a ++ flat_map get_sub_accounts (Account.accounts a).
Proof. destruct a; reflexivity. Qed.

Lemma height_eq (a : Account.t) :
  height a = S (fold_right Nat.max 0 (map height (Account.accounts a))).
Proof. destruct a; reflexivity. Qed.

Lemma child_height (a c : Account.t) :
  In c (Account.accounts a) -> height c < height a.
Proof.
  rewrite (height_eq a). generalize (Account.accounts a) as cs.
  induction cs as [|x cs IH]; simpl; intros H.
  - contradiction.
  - destruct H as [-> | H].
    + lia.
    + specialize (IH H). lia.
Qed.

(** Induction over the account tree: a property passes from the children
    to the account. *)
Lemma account_tree_ind (P : Account.t -> Prop) :
  (forall a, (forall c, In c (Account.accounts a) -> P c) -> P a) ->
  forall a, P a.
Proof.
  intros step.
  assert (H : forall n a, height a < n -> P a).
  { induction n as [|n IH]; intros a Hn.
    - lia.
    - apply step. intros c Hc. apply IH.
      pose proof (child_height a c Hc). lia. }
  intros a. apply (H (S (height a))). lia.
Qed.

Lemma descendant_height (a x : Account.t) :
  descendant a x -> height x < height a.
Proof.
  induction 1 as [a c Hc | a c x Hc _ IH].
  - apply child_height. exact Hc.
  - pose proof (child_height a c Hc). lia.
Qed.

Lemma in_get_sub_accounts (a x : Account.t) :
  In x (get_sub_accounts a) <-> descendant a x.
Proof.
  split.
  - revert x. induction a as [a IH] using account_tree_ind. intros x.
    rewrite get_sub_accounts_eq. intros H. apply in_app_or in H.
    destruct H as [H | H].
    + apply descendant_child. exact H.
    + apply in_flat_map in H. destruct H as [c [Hc Hx]].
      apply descendant_deeper with c; [exact Hc | apply IH; assumption].
  - induction 1 as [a c Hc | a c x Hc _ IH];
      rewrite get_sub_accounts_eq; apply in_or_app.
    + left. exact Hc.
    + right. apply in_flat_map. exists c. split; assumption.
Qed.

(** *** Positions *)

Lemma walk_paths_eq (a : Account.t) :
  walk_paths a
  = map (fun i => [i]) (seq 0 (List.length (Account.accounts a)))
    ++ paths_below 0 (Account.accounts a).
Proof. destruct a; reflexivity. Qed.

Lemma in_paths_below (k : nat) (cs : list Account.t) (path : list nat) :
  In path (paths_below k cs)
  <-> exists i c rest,
      nth_error cs i = Some c /\ path = (k + i) :: rest
      /\ In rest (walk_paths c).
Proof.
  revert k. induction cs as [|c cs IH]; intros k; simpl.
  - split; [contradiction|]. intros [i [c [rest [H _]]]].
    destruct i; discriminate.
  - rewrite in_app_iff, in_map_iff, IH. split.
    + intros [[rest [<- Hrest]] | [i [c' [rest [Hn [-> Hrest]]]]]].
      * exists 0, c, rest. rewrite Nat.add_0_r. auto.
      * exists (S i), c', rest. rewrite Nat.add_succ_r. auto.
    + intros [[|i] [c' [rest [Hn [-> Hrest]]]]]; simpl in Hn.
      * injection Hn as <-. left. exists rest.
        rewrite Nat.add_0_r. auto.
      * right. exists i, c', rest. rewrite Nat.add_succ_r. auto.
Qed.

Lemma subtree_at_cons (a : Account.t) (i : nat) (rest : list nat) :
  subtree_at a (i :: rest)
  = match nth_error (Account.accounts a) i with
    | Some c => subtree_at c rest
    | None => None
    end.
Proof. reflexivity. Qed.

(** The walker's positions are the non-empty paths that lead to an
    account. *)
Lemma in_walk_paths (a : Account.t) (path : list nat) :
  In path (walk_paths a) <-> path <> [] /\ subtree_at a path <> None.
Proof.
  revert path. induction a as [a IH] using account_tree_ind. intros path.
  rewrite walk_paths_eq, in_app_iff, in_map_iff, in_paths_below. split.
  - intros [[i [<- Hi]] | [i [c [rest [Hn [-> Hrest]]]]]].
    + split; [discriminate|]. rewrite subtree_at_cons.
      apply in_seq in Hi.
      destruct (nth_error (Account.accounts a) i) eqn:E.
      * simpl. discriminate.
      * apply nth_error_None in E. lia.
    + split; [discriminate|]. rewrite subtree_at_cons. simpl. rewrite Hn.
      apply IH; [eapply nth_error_In; eassumption | exact Hrest].
  - intros [Hne Hsub]. destruct path as [|i rest]; [congruence|].
    rewrite subtree_at_cons in Hsub.
    destruct (nth_error (Account.accounts a) i) as [c|] eqn:E;
      [|congruence].
    destruct rest as [|j rest].
    + left. exists i. split; [reflexivity|]. apply in_seq.
      assert (nth_error (Account.accounts a) i <> None) by congruence.
      apply nth_error_Some in H. lia.
    + right. exists i, c, (j :: rest). repeat split; auto.
      apply IH; [eapply nth_error_In; eassumption|].
      split; [discriminate | exact Hsub].
Qed.

Lemma NoDup_paths_below (k : nat) (cs : list Account.t) :
  (forall c, In c cs -> NoDup (walk_paths c)) ->
  NoDup (paths_below k cs).
Proof.
  revert k. induction cs as [|c cs IH]; intros k H; simpl.
  - constructor.
  - apply NoDup_app.
    + apply NoDup_map_NoDup_ForallPairs.
      * intros x y _ _ E. injection E as ->. reflexivity.
      * apply H. left. reflexivity.
    + apply IH. intros c' Hc'. apply H. right. exact Hc'.
    + intros path Hl Hr. apply in_map_iff in Hl.
      destruct Hl as [rest [<- _]].
      apply in_paths_below in Hr.
      destruct Hr as [i [c' [rest' [_ [E _]]]]].
      injection E as E _. lia.
Qed.

Lemma NoDup_walk_paths (a : Account.t) : NoDup (walk_paths a).
Proof.
  induction a as [a IH] using account_tree_ind.
  rewrite walk_paths_eq. apply NoDup_app.
  - apply NoDup_map_NoDup_ForallPairs.
    + intros x y _ _ E. injection E as ->. reflexivity.
    + apply seq_NoDup.
  - apply NoDup_paths_below. exact IH.
  - intros path Hl Hr. apply in_map_iff in Hl. destruct Hl as [i [<- _]].
    apply in_paths_below in Hr.
    destruct Hr as [j [c [rest [Hn [E Hrest]]]]].
    injection E as _ <-.
    apply in_walk_paths in Hrest. destruct Hrest as [Hne _]. congruence.
Qed.

Lemma map_nth_error_seq {A : Type} (pre cs : list A) :
  map (nth_error (pre ++ cs)) (seq (List.length pre) (List.length cs))
  = map Some cs.
Proof.
  revert pre. induction cs as [|c cs IH]; intros pre; simpl.
  - reflexivity.
  - f_equal.
    + rewrite nth_error_app2 by lia. rewrite Nat.sub_diag. reflexivity.
    + specialize (IH (pre ++ [c])).
      rewrite <- app_assoc, length_app, Nat.add_1_r in IH. exact IH.
Qed.

Lemma map_subtree_at_below (a : Account.t) (pre cs : list Account.t) :
  Account.accounts a = pre ++ cs ->
  (forall c, In c cs ->
             map (subtree_at c) (walk_paths c)
             = map Some (get_sub_accounts c)) ->
  map (subtree_at a) (paths_below (List.length pre) cs)
  = map Some (flat_map get_sub_accounts cs).
Proof.
  revert pre. induction cs as [|c cs IH]; intros pre Ha H; simpl.
  - reflexivity.
  - rewrite !map_app, map_map. f_equal.
    + rewrite <- (H c (or_introl eq_refl)). apply map_ext. intros rest.
      rewrite subtree_at_cons, Ha, nth_error_app2 by lia.
      rewrite Nat.sub_diag. reflexivity.
    + specialize (IH (pre ++ [c])).
      rewrite <- app_assoc, length_app, Nat.add_1_r in IH.
      apply IH; [exact Ha|]. intros c' Hc'. apply H. right. exact Hc'.
Qed.

(** Position by position, the walker lists the accounts at its paths. *)
Lemma map_subtree_at_walk_paths (a : Account.t) :
  map (subtree_at a) (walk_paths a) = map Some (get_sub_accounts a).
Proof.
  induction a as [a IH] using account_tree_ind.
  rewrite walk_paths_eq, get_sub_accounts_eq, !map_app. f_equal.
  - rewrite map_map.
    rewrite <- (map_nth_error_seq [] (Account.accounts a)). simpl.
    apply map_ext. intros i.
    destruct (nth_error (Account.accounts a) i); reflexivity.
  - apply (map_subtree_at_below a [] (Account.accounts a) eq_refl IH).
Qed.

(** *** Complete trees *)

Lemma list_sum_pow_S (b : nat) (l : list nat) :
  list_sum (map (fun i => b ^ S i) l) = b * list_sum (map (Nat.pow b) l).
Proof.
  induction l as [|i l IH]; cbn [map list_sum fold_right].
  - lia.
  - fold (list_sum (map (fun i => b ^ S i) l)).
    fold (list_sum (map (Nat.pow b) l)).
    rewrite IH, Nat.pow_succ_r'. lia.
Qed.

Lemma geometric_S (b d : nat) : geometric b (S d) = b + b * geometric b d.
Proof.
  unfold geometric. rewrite <- cons_seq. cbn [map list_sum fold_right].
  rewrite Nat.pow_1_r. f_equal.
  fold (list_sum (map (Nat.pow b) (seq 2 d))).
  rewrite <- seq_shift, map_map. apply list_sum_pow_S.
Qed.

Lemma length_flat_map_uniform {A B : Type} (f : A -> list B) (m : nat)
  (l : list A) :
  (forall x, In x l -> List.length (f x) = m) ->
  List.length (flat_map f l) = List.length l * m.
Proof.
  induction l as [|x l IH]; intros H; simpl.
  - reflexivity.
  - rewrite length_app, (H x (or_introl eq_refl)), IH.
    + reflexivity.
    + intros y Hy. apply H. right. exact Hy.
Qed.

Lemma length_get_sub_accounts_complete (b d : nat) (a : Account.t) :
  complete b d a -> List.length (get_sub_accounts a) = geometric b d.
Proof.
  revert a. induction d as [|d IH]; intros a H; rewrite get_sub_accounts_eq.
  - simpl in H. rewrite H. reflexivity.
  - destruct H as [Hb Hall]. rewrite Forall_forall in Hall.
    rewrite length_app, geometric_S, Hb. f_equal.
    rewrite (length_flat_map_uniform _ (geometric b d)).
    + rewrite Hb. reflexivity.
    + intros c Hc. apply IH, Hall, Hc.
Qed.

(** C8. The walker returns the descendants of the account and nothing
    else, the account itself is not among them, the returned list holds
    exactly one entry for every position below the account (so no
    account is listed twice unless it sits at two positions), and on a
    complete tree of depth [d] and branching factor [b] it has
    [b + b^2 + ... + b^d] entries. *)
Theorem get_sub_accounts_descendants (a : Account.t) :
  (forall x, In x (get_sub_accounts a) <-> descendant a x)
  /\ ~ In a (get_sub_accounts a)
  /\ (NoDup (walk_paths a)
      /\ (forall path, In path (walk_paths a)
                       <-> path <> [] /\ subtree_at a path <> None)
      /\ map (subtree_at a) (walk_paths a) = map Some (get_sub_accounts a))
  /\ ((forall p q, In p (walk_paths a) -> In q (walk_paths a) ->
                   subtree_at a p = subtree_at a q -> p = q) ->
      NoDup (get_sub_accounts a))
  /\ (forall b d, complete b d a ->
                  List.length (get_sub_accounts a) = geometric b d).
Proof.
  split; [intros x; apply in_get_sub_accounts|].
  split.
  { intros H. apply in_get_sub_accounts, descendant_height in H. lia. }
  split.
  { split; [apply NoDup_walk_paths|].
    split; [intros path; apply in_walk_paths|].
    apply map_subtree_at_walk_paths. }
  split.
  - intros Hinj. apply (NoDup_map_inv Some).
    rewrite <- map_subtree_at_walk_paths.
    apply NoDup_map_NoDup_ForallPairs; [|apply NoDup_walk_paths].
    intros p q Hp Hq. apply Hinj; assumption.
  - intros b d. apply length_get_sub_accounts_complete.
Qed.

End Walker.

Lemma sample_complete : complete 2 2 Sample.tree22.
Proof.
  simpl. split; [reflexivity|].
  repeat constructor.
Qed.

Lemma sample_positions_distinct (p q : list nat) :
  In p (walk_paths Sample.tree22) -> In q (walk_paths Sample.tree22) ->
  subtree_at Sample.tree22 p = subtree_at Sample.tree22 q -> p = q.
Proof.
  intros Hp Hq E. simpl in Hp, Hq.
  repeat (destruct Hp as [<- | Hp]); try contradiction;
    repeat (destruct Hq as [<- | Hq]); try contradiction;
    try reflexivity; vm_compute in E; discriminate.
Qed.

Lemma get_sub_accounts_descendants_witness :
  List.length (get_sub_accounts Sample.tree22) = 6%nat
  /\ NoDup (get_sub_accounts Sample.tree22).
Proof.
  destruct (get_sub_accounts_descendants Sample.tree22)
    as [_ [_ [_ [Hnodup Hsize]]]].
  split.
  - exact (Hsize 2%nat 2%nat sample_complete).
  - exact (Hnodup sample_positions_distinct).
Defined.

(** ** Depreciation post selector *)

(** C6. When the pattern resolves to no account the selector raises
    the [ValueError] that reports the missing account, and the program
    prints that message and no table.  When it resolves to an account
    the selector returns the postings of the reporting year attached to
    that account or to one of its descendants, and only those. *)
Theorem get_afa_posts_spec (journal : Journal.t) (account : string)
  (year : Z) :
  (Journal.find_account_re journal account = None ->
   let message := String.append "Konto nicht gefunden: " account in
   get_afa_posts journal account year = Raise (ValueError message)
   /\ main journal account year = ([Line message], None))
  /\ (forall top,
         Journal.find_account_re journal account = Some top ->
         exists posts,
           get_afa_posts journal account year = Ok posts
           /\ forall p,
               In p posts
               <-> (exists a, (a = top \/ descendant top a)
                              /\ In p (Account.posts a))
                   /\ year_of p = year).
Proof.
  split.
  - intros H message. unfold main, get_afa_posts. rewrite H.
    split; reflexivity.
  - intros top H. unfold get_afa_posts. rewrite H.
    eexists. split; [reflexivity|]. intros p.
    rewrite filter_In, in_flat_map. unfold year_of. rewrite Z.eqb_eq.
    split; intros [[a [Ha Hp]] Hy]; (split; [|exact Hy]); exists a;
      (split; [|exact Hp]).
    + destruct Ha as [<- | Ha]; [left; reflexivity|].
      right. apply in_get_sub_accounts. exact Ha.
    + destruct Ha as [-> | Ha]; [left; reflexivity|].
      right. apply in_get_sub_accounts. exact Ha.
Qed.

Lemma get_afa_posts_spec_witness :
  main Sample.journal "Nonexistent" 2021
  = ([Line "Konto nicht gefunden: Nonexistent"], None)
  /\ exists posts,
      get_afa_posts Sample.journal "AfA" 2021 = Ok posts
      /\ In Sample.afa21 posts.
Proof.
  destruct (get_afa_posts_spec Sample.journal "Nonexistent" 2021)
    as [Hnone _].
  destruct (get_afa_posts_spec Sample.journal "AfA" 2021) as [_ Hsome].
  split.
  - exact (proj2 (Hnone eq_refl)).
  - destruct (Hsome _ eq_refl) as [posts [Hposts Hin]].
    exists posts. split; [exact Hposts|].
    apply Hin. split; [|reflexivity].
    eexists. split; [left; reflexivity|]. left. reflexivity.
Defined.

(** ** Asset discoverer *)

Section Discoverer.
Variable journal : Journal.t.
Local Open Scope nat_scope.

Lemma asset_eqb_refl (x : asset) : asset_eqb journal x x = true.
Proof.
  unfold asset_eqb. rewrite String.eqb_refl, Nat.eqb_refl. reflexivity.
Qed.

Lemma asset_eqb_true (x y : asset) :
  asset_eqb journal x y = true
  <-> Account.fullname (Journal.account_at journal (fst x))
      = Account.fullname (Journal.account_at journal (fst y))
      /\ snd x = snd y.
Proof.
  unfold asset_eqb. rewrite andb_true_iff, String.eqb_eq, Nat.eqb_eq.
  reflexivity.
Qed.

(** Equal elements compare alike with every third one. *)
Lemma asset_eqb_congr (x y z : asset) :
  asset_eqb journal x y = true -> asset_eqb journal x z = asset_eqb journal y z.
Proof.
  intros H. apply asset_eqb_true in H. destruct H as [Hn Hx].
  unfold asset_eqb. rewrite Hn, Hx. reflexivity.
Qed.

Lemma asset_eqb_sym (x y : asset) : asset_eqb journal x y = asset_eqb journal y x.
Proof.
  unfold asset_eqb. rewrite String.eqb_sym, Nat.eqb_sym. reflexivity.
Qed.

Lemma copies_zero (y : asset) (s : list asset) :
  existsb (asset_eqb journal y) s = false -> copies journal y s = 0.
Proof.
  intros H. apply filter_nil_existsb in H. unfold copies. rewrite H.
  reflexivity.
Qed.

Lemma copies_positive (y : asset) (s : list asset) :
  existsb (asset_eqb journal y) s = true -> 1 <= copies journal y s.
Proof.
  intros H. unfold copies.
  destruct (filter (asset_eqb journal y) s) eqn:E; simpl; [|lia].
  apply filter_nil_existsb in E. congruence.
Qed.

Lemma copies_set_add (y x : asset) (s : list asset) :
  copies journal y (set_add journal s x)
  = if existsb (asset_eqb journal x) s then copies journal y s
    else copies journal y s + (if asset_eqb journal y x then 1 else 0).
Proof.
  unfold set_add, copies. destruct (existsb (asset_eqb journal x) s).
  - reflexivity.
  - rewrite filter_app, length_app. simpl. destruct (asset_eqb journal y x); reflexivity.
Qed.

Lemma existsb_congr (x y : asset) (s : list asset) :
  asset_eqb journal x y = true -> existsb (asset_eqb journal x) s = existsb (asset_eqb journal y) s.
Proof.
  intros H. induction s as [|e s IH]; simpl.
  - reflexivity.
  - rewrite IH, (asset_eqb_congr x y e H). reflexivity.
Qed.

Lemma no_double_set_add (s : list asset) (x : asset) :
  no_double journal s -> no_double journal (set_add journal s x).
Proof.
  intros H y. rewrite copies_set_add.
  destruct (existsb (asset_eqb journal x) s) eqn:E; [apply H|].
  destruct (asset_eqb journal y x) eqn:Eyx.
  - rewrite copies_zero; [lia|].
    rewrite (existsb_congr y x s Eyx). exact E.
  - specialize (H y). lia.
Qed.

Lemma copies_set_add_mono (y x : asset) (s : list asset) :
  copies journal y s <= copies journal y (set_add journal s x).
Proof. rewrite copies_set_add. destruct (existsb (asset_eqb journal x) s); lia. Qed.

Lemma copies_set_add_same (y x : asset) (s : list asset) :
  asset_eqb journal y x = true -> 1 <= copies journal y (set_add journal s x).
Proof.
  intros H. rewrite copies_set_add.
  destruct (existsb (asset_eqb journal x) s) eqn:E.
  - apply copies_positive. rewrite (existsb_congr y x s H). exact E.
  - rewrite H. lia.
Qed.

Lemma no_double_set_union (s xs : list asset) :
  no_double journal s -> no_double journal (set_union journal s xs).
Proof.
  unfold set_union. revert s. induction xs as [|x xs IH]; intros s H; simpl.
  - exact H.
  - apply IH, no_double_set_add, H.
Qed.

Lemma copies_set_union_mono (y : asset) (s xs : list asset) :
  copies journal y s <= copies journal y (set_union journal s xs).
Proof.
  unfold set_union. revert s. induction xs as [|x xs IH]; intros s; simpl.
  - lia.
  - pose proof (copies_set_add_mono y x s). specialize (IH (set_add journal s x)).
    lia.
Qed.

Lemma copies_set_union_in (y x : asset) (s xs : list asset) :
  In x xs -> asset_eqb journal y x = true -> 1 <= copies journal y (set_union journal s xs).
Proof.
  unfold set_union. revert s. induction xs as [|x' xs IH]; intros s Hin H.
  - contradiction.
  - simpl. destruct Hin as [-> | Hin].
    + pose proof (copies_set_add_same y x s H).
      pose proof (copies_set_union_mono y (set_add journal s x) xs).
      unfold set_union in *. lia.
    + apply IH; assumption.
Qed.

Lemma copies_positive_inv (y : asset) (s : list asset) :
  1 <= copies journal y s -> exists e, In e s /\ asset_eqb journal y e = true.
Proof.
  unfold copies. intros H.
  destruct (filter (asset_eqb journal y) s) as [|e l] eqn:E; simpl in H; [lia|].
  exists e. apply filter_In. rewrite E. left. reflexivity.
Qed.

Lemma get_inventory_eq (posts : list Posting.t) :
  get_inventory journal posts = fold_left (add_siblings journal) posts [].
Proof. reflexivity. Qed.

Lemma no_double_fold (posts : list Posting.t) (s : list asset) :
  no_double journal s -> no_double journal (fold_left (add_siblings journal) posts s).
Proof.
  revert s. induction posts as [|post posts IH]; intros s Hs; simpl.
  - exact Hs.
  - apply IH. unfold add_siblings. apply no_double_set_union, Hs.
Qed.

Lemma copies_fold_mono (y : asset) (posts : list Posting.t)
  (s : list asset) :
  copies journal y s <= copies journal y (fold_left (add_siblings journal) posts s).
Proof.
  revert s. induction posts as [|post posts IH]; intros s; simpl.
  - lia.
  - specialize (IH (add_siblings journal s post)).
    pose proof (copies_set_union_mono
                  y s (set_union journal [] (siblings journal post))).
    unfold add_siblings in *. lia.
Qed.

Lemma copies_add_siblings (x : asset) (s : list asset) (post : Posting.t) :
  In x (siblings journal post) -> 1 <= copies journal x (add_siblings journal s post).
Proof.
  intros Hx. unfold add_siblings.
  assert (H1 : 1 <= copies journal x (set_union journal []
                                        (siblings journal post))).
  { apply copies_set_union_in with x; [exact Hx | apply asset_eqb_refl]. }
  apply copies_positive_inv in H1. destruct H1 as [e [He Hxe]].
  apply (copies_set_union_in x e s _ He Hxe).
Qed.

Lemma copies_fold_in (x : asset) (posts : list Posting.t) (post : Posting.t)
  (s : list asset) :
  In post posts -> In x (siblings journal post) ->
  1 <= copies journal x (fold_left (add_siblings journal) posts s).
Proof.
  revert s. induction posts as [|post' posts IH]; intros s Hpost Hx.
  - contradiction.
  - simpl. destruct Hpost as [-> | Hpost].
    + pose proof (copies_add_siblings x s post Hx).
      pose proof (copies_fold_mono x posts (add_siblings journal s post)). lia.
    + apply IH; assumption.
Qed.

Lemma no_double_get_inventory (posts : list Posting.t) :
  no_double journal (get_inventory journal posts).
Proof.
  rewrite get_inventory_eq. apply no_double_fold.
  intros y. unfold copies. simpl. lia.
Qed.

Lemma copies_get_inventory (posts : list Posting.t) (post : Posting.t)
  (x : asset) :
  In post posts -> In x (siblings journal post) ->
  1 <= copies journal x (get_inventory journal posts).
Proof. rewrite get_inventory_eq. apply copies_fold_in. Qed.

End Discoverer.

(** X17. The set is keyed by the account's full name and the
    transaction itself: when two depreciation postings have sibling
    postings on accounts of one full name in one and the same
    transaction, the discoverer keeps exactly one pair for them. *)
Theorem get_inventory_one_per_transaction (journal : Journal.t)
  (posts : list Posting.t) (post1 post2 : Posting.t) (s1 s2 : asset) :
  In post1 posts -> In post2 posts ->
  In s1 (siblings journal post1) -> In s2 (siblings journal post2) ->
  Account.fullname (Journal.account_at journal (fst s1))
  = Account.fullname (Journal.account_at journal (fst s2)) ->
  snd s1 = snd s2 ->
  exists e,
    filter (fun e => asset_eqb journal s1 e || asset_eqb journal s2 e)
           (get_inventory journal posts)
    = [e].
Proof.
  intros Hp1 _ Hs1 _ Hname Hxact.
  assert (Heq : asset_eqb journal s1 s2 = true).
  { apply asset_eqb_true. split; assumption. }
  assert (Hsame : filter (fun e => asset_eqb journal s1 e
                                   || asset_eqb journal s2 e)
                         (get_inventory journal posts)
                  = filter (asset_eqb journal s1)
                           (get_inventory journal posts)).
  { apply filter_ext. intros e.
    rewrite <- (asset_eqb_congr journal s1 s2 e Heq).
    apply orb_diag. }
  rewrite Hsame.
  pose proof (no_double_get_inventory journal posts s1) as Hle.
  pose proof (copies_get_inventory journal posts post1 s1 Hp1 Hs1) as Hge.
  unfold copies in *.
  destruct (filter (asset_eqb journal s1) (get_inventory journal posts))
    as [|e [|e' l]]; simpl in *; try lia.
  exists e. reflexivity.
Qed.

Lemma get_inventory_one_per_transaction_witness :
  exists e,
    filter (fun e => asset_eqb Sample.parts_journal (Sample.LAPTOP, 1%nat) e
                     || asset_eqb Sample.parts_journal
                                  (Sample.LAPTOP, 1%nat) e)
           (get_inventory Sample.parts_journal
                          [Sample.afa21x; Sample.afa21y])
    = [e].
Proof.
  apply (get_inventory_one_per_transaction
           Sample.parts_journal [Sample.afa21x; Sample.afa21y]
           Sample.afa21x Sample.afa21y
           (Sample.LAPTOP, 1%nat) (Sample.LAPTOP, 1%nat)).
  - simpl. auto.
  - simpl. auto.
  - vm_compute. auto.
  - vm_compute. auto.
  - reflexivity.
  - reflexivity.
Defined.

(** C5 on the code.  Two write-downs of the laptop in 2021 are booked
    as two transactions with the code [INV1]; their depreciation
    postings have siblings on the same asset account and the codes
    agree.  The claim asks for one pair, hence one item; the set
    compares transactions, not codes, so the discoverer yields two
    pairs, and the report lists the laptop twice with the same figures
    and counts it twice in the totals. *)
Theorem get_inventory_two_for_one_code :
  let posts := [Sample.afa21a; Sample.afa21b] in
  let s1 := (Sample.LAPTOP, 1%nat) in
  let s2 := (Sample.LAPTOP, 2%nat) in
  let fullname_of (a : asset) :=
    Account.fullname (Journal.account_at Sample.halves_journal (fst a)) in
  let code_of (a : asset) :=
    Transaction.code (Journal.xact_at Sample.halves_journal (snd a)) in
  siblings Sample.halves_journal Sample.afa21a = [s1]
  /\ siblings Sample.halves_journal Sample.afa21b = [s2]
  /\ fullname_of s1 = fullname_of s2
  /\ code_of s1 = code_of s2
  /\ get_afa_posts Sample.halves_journal "AfA" 2021 = Ok posts
  /\ get_inventory Sample.halves_journal posts = [s1; s2]
  /\ List.length
       (filter (fun e => String.eqb (fullname_of e) (fullname_of s1)
                         && code_eqb (code_of e) (code_of s1))
               (get_inventory Sample.halves_journal posts))
     = 2%nat
  /\ main Sample.halves_journal "AfA" 2021
     = ([Table [sample_item; sample_item] 2021], None)
  /\ attr_sum InventoryItem.total_value [sample_item; sample_item] = 2000
  /\ InventoryItem.total_value sample_item = Some 1000.
Proof. cbv zeta. repeat split. Qed.

(** * Further properties *)

(** ** Order of dates *)

Lemma Date_ltb_irrefl (a : Date.t) : Date.ltb a a = false.
Proof.
  destruct a as [y m dd]. unfold Date.ltb. simpl.
  rewrite !Z.ltb_irrefl, !Z.eqb_refl. reflexivity.
Qed.

Lemma Date_ltb_spec (a b : Date.t) :
  Date.ltb a b = true
  <-> Date.year a < Date.year b
      \/ (Date.year a = Date.year b
          /\ (Date.month a < Date.month b
              \/ (Date.month a = Date.month b /\ Date.day a < Date.day b))).
Proof.
  unfold Date.ltb.
  rewrite !orb_true_iff, !andb_true_iff, !orb_true_iff, !andb_true_iff,
          !Z.ltb_lt, !Z.eqb_eq.
  reflexivity.
Qed.

Lemma Date_ltb_trans (a b c : Date.t) :
  Date.ltb a b = true -> Date.ltb b c = true -> Date.ltb a c = true.
Proof. rewrite !Date_ltb_spec. lia. Qed.

(** Two dates neither of which is before the other are equal. *)
Lemma Date_ltb_total (a b : Date.t) :
  Date.ltb a b = false -> Date.ltb b a = false -> a = b.
Proof.
  intros H1 H2.
  assert (N1 : ~ Date.ltb a b = true) by congruence.
  assert (N2 : ~ Date.ltb b a = true) by congruence.
  rewrite Date_ltb_spec in N1, N2.
  destruct a as [y m dd], b as [y' m' dd']. simpl in *.
  f_equal; lia.
Qed.

Lemma date_le_trans (a b c : Date.t) :
  date_le a b -> date_le b c -> date_le a c.
Proof.
  unfold date_le. intros H1 H2.
  destruct (Date.ltb c a) eqn:E; [|reflexivity].
  destruct (Date.ltb b a) eqn:E1; [discriminate|].
  destruct (Date.ltb c b) eqn:E2; [discriminate|].
  assert (N1 : ~ Date.ltb b a = true) by congruence.
  assert (N2 : ~ Date.ltb c b = true) by congruence.
  rewrite Date_ltb_spec in E, N1, N2. lia.
Qed.

Lemma date_le_refl (a : Date.t) : date_le a a.
Proof. apply Date_ltb_irrefl. Qed.

(** ** [min] *)

Lemma fold_min_spec (rest : list Date.t) (d0 : Date.t) :
  let m := fold_left (fun m x => if Date.ltb x m then x else m) rest d0 in
  In m (d0 :: rest) /\ forall d, In d (d0 :: rest) -> date_le m d.
Proof.
  revert d0. induction rest as [|x rest IH]; intros d0; simpl.
  - split; [left; reflexivity|]. intros d [<- | []]. apply date_le_refl.
  - destruct (Date.ltb x d0) eqn:E.
    + destruct (IH x) as [Hin Hmin]. split.
      * right. exact Hin.
      * intros d [<- | Hd]; [|apply Hmin; exact Hd].
        apply date_le_trans with x; [apply Hmin; left; reflexivity|].
        unfold date_le.
        destruct (Date.ltb d0 x) eqn:E'; [|reflexivity].
        pose proof (Date_ltb_trans _ _ _ E E') as C.
        rewrite Date_ltb_irrefl in C. discriminate.
    + destruct (IH d0) as [Hin Hmin]. split.
      * destruct Hin as [Hin | Hin]; [left; exact Hin | right; right; exact Hin].
      * intros d [<- | [<- | Hd]].
        -- apply Hmin. left. reflexivity.
        -- apply date_le_trans with d0; [apply Hmin; left; reflexivity|].
           exact E.
        -- apply Hmin. right. exact Hd.
Qed.

Lemma py_min_spec (ds : list Date.t) (m : Date.t) :
  py_min ds = Ok m -> In m ds /\ forall d, In d ds -> date_le m d.
Proof.
  destruct ds as [|d0 rest]; simpl; [discriminate|].
  intros H. injection H as <-. apply fold_min_spec.
Qed.

(** The smallest element does not depend on the order of the list. *)
Lemma py_min_Permutation (ds ds' : list Date.t) :
  Permutation ds ds' -> py_min ds = py_min ds'.
Proof.
  intros HP.
  destruct ds as [|d0 rest].
  - apply Permutation_nil in HP. subst. reflexivity.
  - destruct ds' as [|d0' rest'].
    + apply Permutation_sym, Permutation_nil in HP. discriminate.
    + destruct (py_min_defined (d0 :: rest)) as [m Hm]; [discriminate|].
      destruct (py_min_defined (d0' :: rest')) as [m' Hm']; [discriminate|].
      rewrite Hm, Hm'. f_equal.
      destruct (py_min_spec _ _ Hm) as [Hin Hmin].
      destruct (py_min_spec _ _ Hm') as [Hin' Hmin'].
      apply Date_ltb_total.
      * apply Hmin'. apply Permutation_in with (d0 :: rest); assumption.
      * apply Hmin. apply Permutation_in with (d0' :: rest');
          [apply Permutation_sym|]; assumption.
Qed.

(** ** What a constructed item looks like *)

Lemma new_Ok_inv (journal : Journal.t) (account : Account.t)
  (xact : Transaction.t) (year : Z) (out out' : list output)
  (item : InventoryItem.t) :
  let code := Transaction.code xact in
  let posts := Account.posts account in
  new journal account xact year out = (Ok item, out') ->
  exists buy_date terms,
    py_min (code_dates journal code posts) = Ok buy_date
    /\ deprecation_terms
         journal code year
         (first_post_after
            (first_post_candidates journal code buy_date posts))
         posts = Ok terms
    /\ item = InventoryItem.set_deprecation_amount
                (py_sum terms)
                (valued journal account xact year buy_date
                        InventoryItem.fresh)
    /\ out' = out ++ unpack_printed
                       (first_post_candidates journal code buy_date posts).
Proof.
  intros code posts Hnew. unfold new in Hnew.
  destruct (existsb (code_matches journal code) posts) eqn:Ex.
  2:{ apply code_dates_nil in Ex.
      rewrite (init_run_no_code _ _ _ _ _ Ex) in Hnew. discriminate. }
  destruct (py_min_defined (code_dates journal code posts)) as [bd Hmin].
  { intros Hnil. apply code_dates_nil in Hnil. congruence. }
  rewrite (init_run_buy_date _ _ _ _ _ _ Hmin) in Hnew.
  fold code posts in Hnew.
  destruct (deprecation_terms journal code year _ posts) as [terms|e] eqn:Et;
    [|discriminate].
  cbn [self stdout] in Hnew. injection Hnew as <- <-.
  exists bd, terms. auto.
Qed.

Lemma in_code_dates (journal : Journal.t) (code : Code)
  (posts : list Posting.t) (d : Date.t) :
  In d (code_dates journal code posts)
  <-> exists p, In p posts /\ code_matches journal code p = true
                /\ Posting.date p = d.
Proof.
  unfold code_dates. rewrite in_map_iff. split.
  - intros [p [Hd Hp]]. apply filter_In in Hp. destruct Hp as [Hin Hc].
    exists p. auto.
  - intros [p [Hin [Hc Hd]]]. exists p. split; [exact Hd|].
    apply filter_In. auto.
Qed.

(** X1. The buy date of a constructed item is the date of one of the
    account's postings under the code, and no posting under the code is
    dated earlier. *)
Theorem buy_date_is_earliest (journal : Journal.t) (account : Account.t)
  (xact : Transaction.t) (year : Z) (out out' : list output)
  (item : InventoryItem.t) :
  let code := Transaction.code xact in
  let posts := Account.posts account in
  new journal account xact year out = (Ok item, out') ->
  exists buy_date,
    InventoryItem.buy_date item = Some buy_date
    /\ (exists p, In p posts /\ code_matches journal code p = true
                  /\ Posting.date p = buy_date)
    /\ forall p, In p posts -> code_matches journal code p = true ->
                 date_le buy_date (Posting.date p).
Proof.
  intros code posts Hnew.
  destruct (new_Ok_inv _ _ _ _ _ _ _ Hnew) as [bd [terms [Hmin [_ [-> _]]]]].
  exists bd. split; [reflexivity|].
  destruct (py_min_spec _ _ Hmin) as [Hin Hle]. split.
  - apply in_code_dates. exact Hin.
  - intros p Hp Hc. apply Hle. apply in_code_dates. exists p. auto.
Qed.

Lemma buy_date_is_earliest_witness :
  exists item buy_date,
    new Sample.journal Sample.laptop_account Sample.writedown 2021 []
    = (Ok item, [])
    /\ InventoryItem.buy_date item = Some buy_date
    /\ date_le buy_date (Posting.date Sample.dep21).
Proof.
  eexists.
  destruct (buy_date_is_earliest
              Sample.journal Sample.laptop_account Sample.writedown 2021
              [] [] _ eq_refl)
    as [bd [Hbd [_ Hle]]].
  exists bd. split; [reflexivity|]. split; [exact Hbd|].
  apply Hle; [right; left; reflexivity | reflexivity].
Defined.

(** X2. A constructed item has every attribute assigned; [code],
    [item], [account] and [year] hold the code of the transaction, the
    name and the full name of the account, and the year. *)
Theorem constructed_item_assigned (journal : Journal.t)
  (account : Account.t) (xact : Transaction.t) (year : Z)
  (out out' : list output) (item : InventoryItem.t) :
  new journal account xact year out = (Ok item, out') ->
  assigned item
  /\ InventoryItem.code item = Some (Transaction.code xact)
  /\ InventoryItem.item item = Some (Account.name account)
  /\ InventoryItem.account item = Some (Account.fullname account)
  /\ InventoryItem.year item = Some year.
Proof.
  intros Hnew.
  destruct (new_Ok_inv _ _ _ _ _ _ _ Hnew) as [bd [terms [_ [_ [-> _]]]]].
  split; [|repeat split; reflexivity].
  unfold assigned. cbn. repeat split; discriminate.
Qed.

Lemma constructed_item_assigned_witness :
  exists item,
    new Sample.journal Sample.laptop_account Sample.writedown 2021 []
    = (Ok item, [])
    /\ assigned item.
Proof.
  eexists. split; [reflexivity|].
  exact (proj1 (constructed_item_assigned
                  Sample.journal Sample.laptop_account Sample.writedown
                  2021 [] [] _ eq_refl)).
Defined.

(** ** Signs and bounds of the figures *)

Lemma sum_where_pointwise (f g : Posting.t -> Z)
  (keep keep' : Posting.t -> bool) (posts : list Posting.t) :
  (forall p, In p posts ->
             (if keep p then f p else 0) = (if keep' p then g p else 0)) ->
  sum_where f keep posts = sum_where g keep' posts.
Proof.
  induction posts as [|p posts IH]; intros H; simpl.
  - reflexivity.
  - assert (Hp := H p (or_introl eq_refl)).
    assert (Hrest : sum_where f keep posts = sum_where g keep' posts).
    { apply IH. intros q Hq. apply H. right. exact Hq. }
    destruct (keep p), (keep' p); lia.
Qed.

Lemma sum_where_le (f g : Posting.t -> Z)
  (keep keep' : Posting.t -> bool) (posts : list Posting.t) :
  (forall p, In p posts ->
             (if keep p then f p else 0) <= (if keep' p then g p else 0)) ->
  sum_where f keep posts <= sum_where g keep' posts.
Proof.
  induction posts as [|p posts IH]; intros H; simpl.
  - lia.
  - assert (Hp := H p (or_introl eq_refl)).
    assert (Hrest : sum_where f keep posts <= sum_where g keep' posts).
    { apply IH. intros q Hq. apply H. right. exact Hq. }
    destruct (keep p), (keep' p); lia.
Qed.

Lemma sum_where_nonneg (f : Posting.t -> Z) (keep : Posting.t -> bool)
  (posts : list Posting.t) :
  (forall p, In p posts -> 0 <= f p) -> 0 <= sum_where f keep posts.
Proof.
  induction posts as [|p posts IH]; intros H; simpl.
  - lia.
  - assert (Hp := H p (or_introl eq_refl)).
    assert (Hrest : 0 <= sum_where f keep posts).
    { apply IH. intros q Hq. apply H. right. exact Hq. }
    destruct (keep p); lia.
Qed.

(** X3. The purchase price of a constructed item is never negative. *)
Theorem total_value_nonnegative (journal : Journal.t) (account : Account.t)
  (xact : Transaction.t) (year : Z) (out out' : list output)
  (item : InventoryItem.t) :
  new journal account xact year out = (Ok item, out') ->
  exists total,
    InventoryItem.total_value item = Some total /\ 0 <= total.
Proof.
  intros Hnew.
  destruct (new_Ok_inv _ _ _ _ _ _ _ Hnew) as [bd [terms [_ [_ [-> _]]]]].
  eexists. split; [reflexivity|].
  rewrite total_value_multiplicity. apply sum_where_nonneg.
  intros p _. apply Z.mul_nonneg_nonneg; lia.
Qed.

Lemma total_value_nonnegative_witness :
  exists item total,
    new Sample.split_journal Sample.laptop_account Sample.writedown 2021 []
    = (Ok item, [])
    /\ InventoryItem.total_value item = Some total /\ 0 <= total.
Proof.
  eexists.
  destruct (total_value_nonnegative
              Sample.split_journal Sample.laptop_account Sample.writedown
              2021 [] [] _ eq_refl) as [total H].
  exists total. split; [reflexivity | exact H].
Defined.

Lemma existsb_length_filter {A : Type} (f : A -> bool) (l : list A) :
  existsb f l = negb (Nat.eqb (List.length (filter f l)) 0).
Proof.
  induction l as [|x l IH]; simpl.
  - reflexivity.
  - destruct (f x); simpl; [reflexivity | exact IH].
Qed.

(** X4. When no posting of the account has more than one funding
    sibling, [total_value] is the sum of [abs(amount)] over the postings
    at the buy date under the code that have a funding sibling. *)
Theorem total_value_single_funding (journal : Journal.t)
  (account : Account.t) (xact : Transaction.t) (year : Z)
  (out out' : list output) (item : InventoryItem.t) :
  let code := Transaction.code xact in
  let posts := Account.posts account in
  (forall p, In p posts ->
             (List.length (filter (funds p) (xact_posts journal p)) <= 1)%nat) ->
  new journal account xact year out = (Ok item, out') ->
  exists buy_date,
    InventoryItem.buy_date item = Some buy_date
    /\ InventoryItem.total_value item
       = Some (spec_total_value journal code buy_date posts).
Proof.
  intros code posts Hone Hnew.
  destruct (new_Ok_inv _ _ _ _ _ _ _ Hnew) as [bd [terms [_ [_ [-> _]]]]].
  exists bd. split; [reflexivity|]. cbn. f_equal. fold code posts.
  rewrite total_value_multiplicity. unfold spec_total_value.
  apply sum_where_pointwise. intros p Hp.
  specialize (Hone p Hp). unfold funds in Hone.
  rewrite (existsb_length_filter
             (fun pn => (Posting.amount pn <? 0)
                        && negb (Posting.id p =? Posting.id pn))).
  destruct (Date.eqb (Posting.date p) bd && code_matches journal code p);
    simpl; [|reflexivity].
  destruct (List.length _) as [|[|n]]; simpl; lia.
Qed.

Lemma sample_single_funding (p : Posting.t) :
  In p (Account.posts Sample.laptop_account) ->
  (List.length (filter (funds p) (xact_posts Sample.journal p)) <= 1)%nat.
Proof. intros [<- | [<- | []]]; vm_compute; lia. Qed.

Lemma total_value_single_funding_witness :
  exists item buy_date,
    new Sample.journal Sample.laptop_account Sample.writedown 2021 []
    = (Ok item, [])
    /\ InventoryItem.buy_date item = Some buy_date
    /\ InventoryItem.total_value item
       = Some (spec_total_value Sample.journal Sample.INV1 buy_date
                                (Account.posts Sample.laptop_account)).
Proof.
  eexists.
  destruct (total_value_single_funding
              Sample.journal Sample.laptop_account Sample.writedown
              2021 [] [] _ sample_single_funding eq_refl) as [bd H].
  exists bd. split; [reflexivity | exact H].
Defined.

Lemma written_down_nonpositive (journal : Journal.t) (code : Code)
  (year : Z) (posts : list Posting.t) :
  written_down journal code year posts <= 0.
Proof.
  unfold written_down.
  assert (H : sum_where Posting.amount
                (fun p => (year_of p =? year) && (Posting.amount p <? 0)
                          && code_matches journal code p) posts
              <= sum_where (fun _ => 0) (fun _ => true) posts).
  { apply sum_where_le. intros p _.
    destruct (year_of p =? year), (Posting.amount p <? 0) eqn:E,
             (code_matches journal code p); simpl; lia. }
  assert (Z0 : sum_where (fun _ => 0) (fun _ => true) posts = 0).
  { clear H. induction posts as [|p posts IH]; simpl; [reflexivity|].
    exact IH. }
  lia.
Qed.

(** X5. Without any assumption on identifiers, a constructed item has
    [next_year_value = last_year_value + (the negative entries of the
    year under the code)], and
    [next_year_value <= last_year_value + deprecation_amount
     <= last_year_value]: the year-end book value never exceeds the
    opening value and the depreciation shown is never positive. *)
Theorem book_values_bounds (journal : Journal.t) (account : Account.t)
  (xact : Transaction.t) (year : Z) (out out' : list output)
  (item : InventoryItem.t) :
  let code := Transaction.code xact in
  let posts := Account.posts account in
  new journal account xact year out = (Ok item, out') ->
  exists last deprecation next,
    InventoryItem.last_year_value item = Some last
    /\ InventoryItem.deprecation_amount item = Some deprecation
    /\ InventoryItem.next_year_value item = Some next
    /\ next = last + written_down journal code year posts
    /\ written_down journal code year posts <= deprecation
    /\ deprecation <= 0.
Proof.
  intros code posts Hnew.
  destruct (new_Ok_inv _ _ _ _ _ _ _ Hnew)
    as [bd [terms [_ [Hterms [-> _]]]]].
  fold code posts in Hterms.
  do 3 eexists. repeat (split; [reflexivity|]). fold code posts.
  rewrite py_sum_last_year_value, py_sum_next_year_value.
  split; [apply next_year_value_split|].
  destruct (first_post_after (first_post_candidates journal code bd posts))
    as [fp | candidates].
  - rewrite deprecation_terms_unpacked in Hterms. injection Hterms as <-.
    rewrite py_sum_filter. split.
    + unfold written_down. apply sum_where_le. intros p _.
      destruct (year_of p =? year),
               (negb (Posting.id p =? Posting.id fp)),
               (Posting.amount p <? 0) eqn:E,
               (code_matches journal code p); simpl; lia.
    + assert (H : sum_where Posting.amount
                    (fun p => (year_of p =? year)
                              && negb (Posting.id p =? Posting.id fp)
                              && (Posting.amount p <? 0)
                              && code_matches journal code p) posts
                  <= sum_where (fun _ => 0) (fun _ => false) posts).
      { apply sum_where_le. intros p _.
        destruct (year_of p =? year),
                 (negb (Posting.id p =? Posting.id fp)),
                 (Posting.amount p <? 0) eqn:E,
                 (code_matches journal code p); simpl; lia. }
      rewrite (sum_where_none (fun _ => 0) (fun _ => false)) in H by auto.
      exact H.
  - rewrite deprecation_terms_list in Hterms.
    destruct (existsb (fun p => year_of p =? year) posts) eqn:Ey;
      [discriminate|].
    injection Hterms as <-. change (py_sum []) with 0.
    split; [apply written_down_nonpositive | lia].
Qed.

Lemma book_values_bounds_witness :
  exists item last deprecation next,
    new Sample.journal Sample.laptop_account Sample.writedown 2021 []
    = (Ok item, [])
    /\ InventoryItem.last_year_value item = Some last
    /\ InventoryItem.deprecation_amount item = Some deprecation
    /\ InventoryItem.next_year_value item = Some next
    /\ next <= last + deprecation /\ deprecation <= 0.
Proof.
  eexists.
  destruct (book_values_bounds
              Sample.journal Sample.laptop_account Sample.writedown 2021
              [] [] _ eq_refl)
    as [last [deprecation [next [Hl [Hd [Hn [Heq [Hle Hneg]]]]]]]].
  exists last, deprecation, next.
  split; [reflexivity|]. repeat (split; [assumption|]).
  split; [lia | exact Hneg].
Defined.

(** ** Order of the postings *)

Lemma sum_where_Permutation (f : Posting.t -> Z) (keep : Posting.t -> bool)
  (posts posts' : list Posting.t) :
  Permutation posts posts' ->
  sum_where f keep posts = sum_where f keep posts'.
Proof.
  induction 1 as [| p l l' _ IH | p q l | l l' l'' _ IH1 _ IH2]; simpl.
  - reflexivity.
  - rewrite IH. reflexivity.
  - destruct (keep p), (keep q); lia.
  - congruence.
Qed.

Lemma filter_Permutation {A : Type} (f : A -> bool) (l l' : list A) :
  Permutation l l' -> Permutation (filter f l) (filter f l').
Proof.
  induction 1 as [| x l l' _ IH | x y l | l l' l'' _ IH1 _ IH2]; simpl.
  - constructor.
  - destruct (f x); [constructor|]; exact IH.
  - destruct (f x), (f y); try apply Permutation_refl. constructor.
  - eapply Permutation_trans; eassumption.
Qed.

Lemma existsb_Permutation {A : Type} (f : A -> bool) (l l' : list A) :
  Permutation l l' -> existsb f l = existsb f l'.
Proof.
  induction 1 as [| x l l' _ IH | x y l | l l' l'' _ IH1 _ IH2]; simpl.
  - reflexivity.
  - rewrite IH. reflexivity.
  - destruct (f x), (f y); reflexivity.
  - congruence.
Qed.

Lemma unpack_printed_Permutation (c c' : list Posting.t) :
  Permutation c c' -> unpack_printed c = unpack_printed c'.
Proof.
  intros H. apply Permutation_length in H.
  destruct c as [|p [|q r]], c' as [|p' [|q' r']]; simpl in *;
    try reflexivity; discriminate.
Qed.

(** The sum of the depreciation generator, or the exception it raises. *)
Lemma deprecation_terms_Permutation (journal : Journal.t) (code : Code)
  (year : Z) (c c' posts posts' : list Posting.t) :
  Permutation c c' -> Permutation posts posts' ->
  and_then (deprecation_terms journal code year (first_post_after c) posts)
           (fun terms => Ok (py_sum terms))
  = and_then (deprecation_terms journal code year (first_post_after c')
                                posts')
             (fun terms => Ok (py_sum terms)).
Proof.
  intros Hc Hp.
  assert (Hlen := Permutation_length Hc).
  destruct c as [|fp [|q r]].
  - apply Permutation_nil in Hc. subst c'. simpl first_post_after.
    rewrite !deprecation_terms_list,
            (existsb_Permutation _ _ _ Hp). reflexivity.
  - apply Permutation_length_1_inv in Hc. subst c'. simpl first_post_after.
    rewrite !deprecation_terms_unpacked. simpl.
    rewrite !py_sum_filter, (sum_where_Permutation _ _ _ _ Hp).
    reflexivity.
  - destruct c' as [|p' [|q' r']]; try discriminate.
    simpl first_post_after.
    rewrite !deprecation_terms_list,
            (existsb_Permutation _ _ _ Hp). reflexivity.
Qed.

(** X6. The result of the construction does not depend on the order in
    which the account lists its postings: the item, the exception and
    the printed lines are the same for every permutation. *)
Theorem valuation_order_independent (journal : Journal.t)
  (account account' : Account.t) (xact : Transaction.t) (year : Z)
  (out : list output) :
  Account.name account = Account.name account' ->
  Account.fullname account = Account.fullname account' ->
  Permutation (Account.posts account) (Account.posts account') ->
  new journal account xact year out = new journal account' xact year out.
Proof.
  intros Hname Hfull Hperm.
  set (code := Transaction.code xact).
  assert (Hdates : Permutation
                     (code_dates journal code (Account.posts account))
                     (code_dates journal code (Account.posts account'))).
  { unfold code_dates. apply Permutation_map, filter_Permutation, Hperm. }
  assert (Hmin := py_min_Permutation _ _ Hdates).
  unfold new.
  destruct (py_min (code_dates journal code (Account.posts account)))
    as [bd|e] eqn:E.
  - symmetry in Hmin.
    rewrite (init_run_buy_date _ _ _ _ _ _ E),
            (init_run_buy_date _ _ _ _ _ _ Hmin).
    fold code. cbn [self stdout].
    assert (Hcand : Permutation
                      (first_post_candidates journal code bd
                                             (Account.posts account))
                      (first_post_candidates journal code bd
                                             (Account.posts account'))).
    { unfold first_post_candidates. apply filter_Permutation, Hperm. }
    rewrite <- (unpack_printed_Permutation _ _ Hcand).
    assert (Hval : valued journal account xact year bd InventoryItem.fresh
                   = valued journal account' xact year bd
                            InventoryItem.fresh).
    { unfold valued, named. fold code. rewrite Hname, Hfull.
      rewrite !total_value_multiplicity, !py_sum_last_year_value,
              !py_sum_next_year_value.
      unfold spec_last_year_value, spec_next_year_value.
      rewrite !(sum_where_Permutation _ _ _ _ Hperm). reflexivity. }
    rewrite <- Hval.
    assert (Hdep := deprecation_terms_Permutation
                      journal code year _ _ _ _ Hcand Hperm).
    destruct (deprecation_terms journal code year
                (first_post_after
                   (first_post_candidates journal code bd
                                          (Account.posts account)))
                (Account.posts account)) as [t|e1];
      destruct (deprecation_terms journal code year
                  (first_post_after
                     (first_post_candidates journal code bd
                                            (Account.posts account')))
                  (Account.posts account')) as [t'|e2];
      simpl in Hdep; try discriminate.
    + injection Hdep as ->. reflexivity.
    + injection Hdep as ->. reflexivity.
  - assert (Hnil : code_dates journal code (Account.posts account) = []).
    { destruct (code_dates journal code (Account.posts account));
        [reflexivity | discriminate]. }
    assert (Hnil' : code_dates journal code (Account.posts account') = []).
    { rewrite Hnil in Hdates. apply Permutation_nil in Hdates. exact Hdates. }
    rewrite (init_run_no_code _ _ _ _ _ Hnil),
            (init_run_no_code _ _ _ _ _ Hnil').
    unfold named. rewrite Hname, Hfull. reflexivity.
Qed.

Lemma valuation_order_independent_witness :
  new Sample.journal Sample.laptop_account Sample.writedown 2021 []
  = new Sample.journal
        (Sample.leaf "Laptop" "Assets:Laptop" [Sample.dep21; Sample.buy])
        Sample.writedown 2021 [].
Proof.
  apply valuation_order_independent.
  - reflexivity.
  - reflexivity.
  - apply perm_swap.
Defined.

(** ** Standard output of the construction *)

(** What one construction prints and returns, started on empty output. *)
Lemma new_frame (journal : Journal.t) (account : Account.t)
  (xact : Transaction.t) (year : Z) (out : list output) :
  new journal account xact year out
  = (fst (new journal account xact year []),
     out ++ snd (new journal account xact year [])).
Proof.
  unfold new.
  destruct (py_min (code_dates journal (Transaction.code xact)
                               (Account.posts account))) as [bd|e] eqn:E.
  - rewrite !(init_run_buy_date _ _ _ _ _ _ E). cbn [self stdout].
    destruct (deprecation_terms _ _ _ _ _); reflexivity.
  - assert (Hnil : code_dates journal (Transaction.code xact)
                              (Account.posts account) = []).
    { destruct (code_dates _ _ _); [reflexivity | discriminate]. }
    rewrite !(init_run_no_code _ _ _ _ _ Hnil). cbn [self stdout fst snd].
    rewrite app_nil_r. reflexivity.
Qed.

Lemma new_printed (journal : Journal.t) (account : Account.t)
  (xact : Transaction.t) (year : Z) :
  let printed := snd (new journal account xact year []) in
  (List.length printed <= 1)%nat /\ forallb is_line printed = true.
Proof.
  unfold new.
  destruct (py_min (code_dates journal (Transaction.code xact)
                               (Account.posts account))) as [bd|e] eqn:E.
  - rewrite (init_run_buy_date _ _ _ _ _ _ E). cbn [self stdout].
    destruct (deprecation_terms _ _ _ _ _); cbn [snd stdout app];
      destruct (first_post_candidates _ _ _ _) as [|p [|q r]];
      simpl; split; auto.
  - assert (Hnil : code_dates journal (Transaction.code xact)
                              (Account.posts account) = []).
    { destruct (code_dates _ _ _); [reflexivity | discriminate]. }
    rewrite (init_run_no_code _ _ _ _ _ Hnil). simpl. split; auto.
Qed.

Lemma new_raises (journal : Journal.t) (account : Account.t)
  (xact : Transaction.t) (year : Z) (out out' : list output) (e : exn) :
  new journal account xact year out = (Raise e, out') ->
  e = ValueError "min() arg is an empty sequence"
  \/ e = AttributeError "'list' object has no attribute 'id'".
Proof.
  unfold new.
  destruct (py_min (code_dates journal (Transaction.code xact)
                               (Account.posts account))) as [bd|e0] eqn:E.
  - rewrite (init_run_buy_date _ _ _ _ _ _ E). cbn [self stdout].
    destruct (first_post_after _) as [fp | c].
    + rewrite deprecation_terms_unpacked. discriminate.
    + rewrite deprecation_terms_list.
      destruct (existsb _ _); [|discriminate].
      intros H. injection H as <- _. right. reflexivity.
  - assert (Hnil : code_dates journal (Transaction.code xact)
                              (Account.posts account) = []).
    { destruct (code_dates _ _ _); [reflexivity | discriminate]. }
    rewrite (init_run_no_code _ _ _ _ _ Hnil).
    intros H. injection H as <- _. left. reflexivity.
Qed.

(** X7. A construction keeps what was printed before, adds at most one
    line (never a table), and neither its result nor the line depends on
    the earlier output. *)
Theorem new_output_frame (journal : Journal.t) (account : Account.t)
  (xact : Transaction.t) (year : Z) (out : list output) :
  exists printed,
    new journal account xact year out
    = (fst (new journal account xact year []), out ++ printed)
    /\ printed = snd (new journal account xact year [])
    /\ (List.length printed <= 1)%nat
    /\ forallb is_line printed = true.
Proof.
  eexists. split; [apply new_frame|]. split; [reflexivity|].
  apply new_printed.
Qed.

(** The constructor reads the transaction only for its code. *)
Lemma new_code_only (journal : Journal.t) (account : Account.t)
  (xact xact' : Transaction.t) (year : Z) (out : list output) :
  Transaction.code xact = Transaction.code xact' ->
  new journal account xact year out = new journal account xact' year out.
Proof.
  intros H. unfold new, init. rewrite H. reflexivity.
Qed.

(** X8. Two discovered pairs with one account and transactions of one
    code give the same item twice: when the first construction succeeds,
    the list comprehension of [main] returns that item at both
    positions. *)
Theorem same_code_same_item (journal : Journal.t) (jahr : Z)
  (a : account_ref) (x1 x2 : xact_ref) (out out1 : list output)
  (item : InventoryItem.t) :
  Transaction.code (Journal.xact_at journal x1)
  = Transaction.code (Journal.xact_at journal x2) ->
  new journal (Journal.account_at journal a) (Journal.xact_at journal x1)
      jahr out = (Ok item, out1) ->
  exists out2,
    new_all journal jahr [(a, x1); (a, x2)] out = (Ok [item; item], out2).
Proof.
  intros Hcode Hnew. simpl. rewrite Hnew.
  rewrite <- (new_code_only _ _ _ _ _ _ Hcode).
  rewrite new_frame. rewrite new_frame in Hnew.
  injection Hnew as Hitem _. rewrite Hitem.
  eexists. reflexivity.
Qed.

Lemma same_code_same_item_witness :
  exists item out2,
    new_all Sample.halves_journal 2021
            [(Sample.LAPTOP, 1%nat); (Sample.LAPTOP, 2%nat)] []
    = (Ok [item; item], out2).
Proof.
  eexists.
  exact (same_code_same_item
           Sample.halves_journal 2021 Sample.LAPTOP 1%nat 2%nat [] []
           _ eq_refl eq_refl).
Defined.

(** ** The program as a whole *)

Lemma forallb_is_line_app (l l' : list output) :
  forallb is_line l = true -> forallb is_line l' = true ->
  forallb is_line (l ++ l') = true.
Proof. intros H H'. rewrite forallb_app, H, H'. reflexivity. Qed.

Lemma assigned_of_new (journal : Journal.t) (account : Account.t)
  (xact : Transaction.t) (year : Z) (out out' : list output)
  (item : InventoryItem.t) :
  new journal account xact year out = (Ok item, out') -> assigned item.
Proof.
  intros Hnew.
  destruct (new_Ok_inv _ _ _ _ _ _ _ Hnew) as [bd [terms [_ [_ [-> _]]]]].
  unfold assigned. cbn. repeat split; discriminate.
Qed.

(** The list comprehension of [main]: output is extended by lines only;
    on success there is one fully assigned item per pair. *)
Lemma new_all_spec (journal : Journal.t) (jahr : Z) (inventory : list asset)
  (out : list output) :
  exists printed,
    snd (new_all journal jahr inventory out) = out ++ printed
    /\ forallb is_line printed = true
    /\ (List.length printed <= List.length inventory)%nat
    /\ match fst (new_all journal jahr inventory out) with
       | Ok items =>
           List.length items = List.length inventory
           /\ Forall assigned items
       | Raise e =>
           e = ValueError "min() arg is an empty sequence"
           \/ e = AttributeError "'list' object has no attribute 'id'"
       end.
Proof.
  revert out. induction inventory as [|[a x] rest IH]; intros out.
  - exists []. simpl. rewrite app_nil_r. auto.
  - simpl.
    pose proof (new_frame journal (Journal.account_at journal a)
                          (Journal.xact_at journal x) jahr out) as Hf.
    destruct (new_printed journal (Journal.account_at journal a)
                          (Journal.xact_at journal x) jahr) as [Hlen Hline].
    set (printed1 := snd (new journal (Journal.account_at journal a)
                              (Journal.xact_at journal x) jahr [])) in *.
    destruct (new journal (Journal.account_at journal a)
                  (Journal.xact_at journal x) jahr out) as [[i|e] out1] eqn:E.
    + injection Hf as _ Hout1.
      destruct (IH out1) as [printed [Hsnd [Hl [Hn Hres]]]].
      exists (printed1 ++ printed).
      destruct (new_all journal jahr rest out1) as [[items|e] out2];
        cbn [fst snd] in *.
      * subst out1 out2. rewrite app_assoc. split; [reflexivity|].
        split; [apply forallb_is_line_app; assumption|].
        split; [rewrite length_app; simpl; lia|].
        destruct Hres as [Hres1 Hres2]. split; [simpl; lia|].
        constructor; [eapply assigned_of_new; eassumption | exact Hres2].
      * subst out1 out2. rewrite app_assoc. split; [reflexivity|].
        split; [apply forallb_is_line_app; assumption|].
        split; [rewrite length_app; simpl; lia | exact Hres].
    + injection Hf as _ Hout1. exists printed1. cbn [fst snd].
      split; [exact Hout1|]. split; [exact Hline|].
      split; [simpl; lia|].
      eapply new_raises. exact E.
Qed.


Lemma filter_none {A : Type} (f : A -> bool) (l : list A) :
  (forall x, In x l -> f x = false) -> filter f l = [].
Proof.
  induction l as [|x l IH]; intros H; simpl.
  - reflexivity.
  - rewrite (H x (or_introl eq_refl)). apply IH.
    intros y Hy. apply H. right. exact Hy.
Qed.

(** X10. When the account is found but neither it nor any of its
    descendants carries a posting of the year, the program prints a
    table without items and nothing else. *)
Theorem main_without_postings (journal : Journal.t) (konto : string)
  (jahr : Z) (top : Account.t) :
  Journal.find_account_re journal konto = Some top ->
  (forall a p, a = top \/ descendant top a -> In p (Account.posts a) ->
               year_of p <> jahr) ->
  main journal konto jahr = ([Table [] jahr], None).
Proof.
  intros Hfind Hnone. unfold main, get_afa_posts. rewrite Hfind.
  rewrite filter_none; [reflexivity|].
  intros p Hp. apply in_flat_map in Hp. destruct Hp as [a [Ha Hp]].
  apply Z.eqb_neq. apply (Hnone a p); [|exact Hp].
  destruct Ha as [<- | Ha]; [left; reflexivity|].
  right. apply in_get_sub_accounts. exact Ha.
Qed.

Lemma main_without_postings_witness :
  main Sample.journal "AfA" 1999 = ([Table [] 1999], None).
Proof.
  apply (main_without_postings Sample.journal "AfA" 1999 _ eq_refl).
  intros a p [-> | Hd] Hp.
  - destruct Hp as [<- | []]. vm_compute. discriminate.
  - inversion Hd as [c Hc | c d0 Hc _]; destruct Hc.
Defined.

(** ** Contents of the inventory *)

Section Inventory.
Variable journal : Journal.t.

Lemma in_set_add (s : list asset) (x e : asset) :
  In e (set_add journal s x) -> In e s \/ e = x.
Proof.
  unfold set_add. destruct (existsb (asset_eqb journal x) s).
  - auto.
  - intros H. apply in_app_or in H. destruct H as [H | [<- | []]]; auto.
Qed.

Lemma in_set_union (s xs : list asset) (e : asset) :
  In e (set_union journal s xs) -> In e s \/ In e xs.
Proof.
  unfold set_union. revert s. induction xs as [|x xs IH]; intros s H; simpl in *.
  - auto.
  - apply IH in H. destruct H as [H | H]; [|auto].
    apply in_set_add in H. destruct H as [H | ->]; auto.
Qed.

Lemma in_fold_add_siblings (posts : list Posting.t) (s : list asset)
  (e : asset) :
  In e (fold_left (add_siblings journal) posts s) ->
  In e s \/ exists post, In post posts /\ In e (siblings journal post).
Proof.
  revert s. induction posts as [|post posts IH]; intros s H; simpl in *.
  - auto.
  - apply IH in H. destruct H as [H | [post' [Hin He]]].
    + unfold add_siblings in H. apply in_set_union in H.
      destruct H as [H | H]; [auto|].
      apply in_set_union in H. destruct H as [[] | H].
      right. exists post. auto.
    + right. exists post'. auto.
Qed.

Lemma in_siblings (post : Posting.t) (e : asset) :
  In e (siblings journal post)
  <-> exists p,
      In p (xact_posts journal post)
      /\ e = (Posting.account p, Posting.xact p)
      /\ Account.fullname (Journal.account_at journal (Posting.account p))
         <> Account.fullname
              (Journal.account_at journal (Posting.account post)).
Proof.
  unfold siblings, xact_posts. rewrite in_map_iff. split.
  - intros [p [<- Hp]]. apply filter_In in Hp. destruct Hp as [Hin Hne].
    exists p. split; [exact Hin|]. split; [reflexivity|].
    apply negb_true_iff, String.eqb_neq in Hne. exact Hne.
  - intros [p [Hin [-> Hne]]]. exists p. split; [reflexivity|].
    apply filter_In. split; [exact Hin|].
    apply negb_true_iff, String.eqb_neq. exact Hne.
Qed.

Lemma present_after_fold (posts : list Posting.t) (s : list asset)
  (post : Posting.t) (x : asset) :
  In post posts -> In x (siblings journal post) ->
  existsb (asset_eqb journal x) (fold_left (add_siblings journal) posts s)
  = true.
Proof.
  intros Hpost Hx.
  pose proof (copies_fold_in journal x posts post s Hpost Hx) as H.
  apply copies_positive_inv in H. destruct H as [e [He Hxe]].
  apply existsb_exists. exists e. auto.
Qed.

Lemma set_union_present (s xs : list asset) :
  (forall x, In x xs -> existsb (asset_eqb journal x) s = true) ->
  set_union journal s xs = s.
Proof.
  unfold set_union. induction xs as [|x xs IH]; intros H; simpl.
  - reflexivity.
  - unfold set_add at 2. rewrite (H x (or_introl eq_refl)).
    apply IH. intros y Hy. apply H. right. exact Hy.
Qed.

Lemma add_siblings_present (s : list asset) (post : Posting.t) :
  (forall x, In x (siblings journal post) ->
             existsb (asset_eqb journal x) s = true) ->
  add_siblings journal s post = s.
Proof.
  intros H. unfold add_siblings. apply set_union_present.
  intros x Hx. apply in_set_union in Hx. destruct Hx as [[] | Hx].
  apply H. exact Hx.
Qed.

Lemma fold_add_siblings_present (posts : list Posting.t) (s : list asset) :
  (forall post x, In post posts -> In x (siblings journal post) ->
                  existsb (asset_eqb journal x) s = true) ->
  fold_left (add_siblings journal) posts s = s.
Proof.
  induction posts as [|post posts IH]; intros H; simpl.
  - reflexivity.
  - rewrite add_siblings_present.
    + apply IH. intros post' x Hp Hx. apply (H post' x); [right|]; assumption.
    + intros x Hx. apply (H post x); [left; reflexivity | exact Hx].
Qed.

End Inventory.

(** X11. The inventory holds exactly the sibling pairs of the
    depreciation postings.  Every element is the pair (account,
    transaction) of a posting of the parent transaction of one of the
    postings, on an account with another full name than that posting's
    own; and every such pair is represented by an element with the same
    full name and the same transaction. *)
Theorem get_inventory_exact (journal : Journal.t) (posts : list Posting.t) :
  (forall e,
      In e (get_inventory journal posts) ->
      exists post p,
        In post posts
        /\ In p (Transaction.posts
                   (Journal.xact_at journal (Posting.xact post)))
        /\ e = (Posting.account p, Posting.xact p)
        /\ Account.fullname (Journal.account_at journal (Posting.account p))
           <> Account.fullname
                (Journal.account_at journal (Posting.account post)))
  /\ (forall post p,
         In post posts ->
         In p (Transaction.posts
                 (Journal.xact_at journal (Posting.xact post))) ->
         Account.fullname (Journal.account_at journal (Posting.account p))
         <> Account.fullname
              (Journal.account_at journal (Posting.account post)) ->
         exists e,
           In e (get_inventory journal posts)
           /\ Account.fullname (Journal.account_at journal (fst e))
              = Account.fullname
                  (Journal.account_at journal (Posting.account p))
           /\ snd e = Posting.xact p).
Proof.
  split.
  - intros e He. rewrite get_inventory_eq in He.
    apply in_fold_add_siblings in He. destruct He as [[] | [post [Hp He]]].
    apply in_siblings in He. destruct He as [p [Hin [-> Hne]]].
    exists post, p. auto.
  - intros post p Hpost Hp Hne.
    assert (Hs : In (Posting.account p, Posting.xact p)
                    (siblings journal post)).
    { apply in_siblings. exists p. auto. }
    pose proof (present_after_fold journal posts [] post _ Hpost Hs) as H.
    apply existsb_exists in H. destruct H as [e [He Heq]].
    apply asset_eqb_true in Heq. destruct Heq as [Hn Hx].
    exists e. rewrite get_inventory_eq. simpl in Hn, Hx. auto.
Qed.

Lemma get_inventory_exact_witness :
  exists e,
    In e (get_inventory Sample.halves_journal [Sample.afa21a; Sample.afa21b])
    /\ Account.fullname (Journal.account_at Sample.halves_journal (fst e))
       = "Assets:Laptop"
    /\ snd e = 2%nat.
Proof.
  destruct (get_inventory_exact Sample.halves_journal
                                [Sample.afa21a; Sample.afa21b]) as [_ H].
  apply (H Sample.afa21b Sample.dep21b).
  - right. left. reflexivity.
  - right. left. reflexivity.
  - vm_compute. discriminate.
Defined.

(** X12. Postings that were already looked at add nothing: appending
    postings of the list to the list leaves the inventory, elements and
    order, as it was. *)
Theorem get_inventory_repeated (journal : Journal.t)
  (posts posts' : list Posting.t) :
  (forall post, In post posts' -> In post posts) ->
  get_inventory journal (posts ++ posts') = get_inventory journal posts.
Proof.
  intros Hsub. rewrite !get_inventory_eq, fold_left_app.
  apply fold_add_siblings_present. intros post x Hpost Hx.
  apply present_after_fold with post; [apply Hsub|]; assumption.
Qed.

Lemma get_inventory_repeated_witness :
  get_inventory Sample.halves_journal
                ([Sample.afa21a; Sample.afa21b]
                 ++ [Sample.afa21b; Sample.afa21a])
  = get_inventory Sample.halves_journal [Sample.afa21a; Sample.afa21b].
Proof.
  apply get_inventory_repeated.
  intros post [<- | [<- | []]]; simpl; auto.
Defined.

(** ** Report renderer *)

Lemma map_result_Ok {A B : Type} (f : A -> result B) (xs : list A)
  (ys : list B) :
  map_result f xs = Ok ys <-> Forall2 (fun x y => f x = Ok y) xs ys.
Proof.
  revert ys. induction xs as [|x xs IH]; intros ys; simpl.
  - split.
    + intros H. injection H as <-. constructor.
    + intros H. inversion H. reflexivity.
  - split.
    + destruct (f x) as [y|e] eqn:E; simpl; [|discriminate].
      destruct (map_result f xs) as [ys'|e] eqn:E'; simpl; [|discriminate].
      intros H. injection H as <-. constructor; [exact E|].
      apply IH. reflexivity.
    + intros H. inversion H as [|x' y xs' ys' Hy Hrest]; subst.
      rewrite Hy. simpl. apply IH in Hrest. rewrite Hrest. reflexivity.
Qed.

Lemma getattr_Ok {A : Type} (name : string)
  (field : InventoryItem.t -> option A) (o : InventoryItem.t) (v : A) :
  getattr name field o = Ok v <-> field o = Some v.
Proof.
  unfold getattr. destruct (field o); split; congruence.
Qed.

Lemma map_result_getattr_total {A : Type} (name : string)
  (field : InventoryItem.t -> option A) (items : list InventoryItem.t) :
  Forall (fun i => field i <> None) items ->
  exists vs, map_result (getattr name field) items = Ok vs.
Proof.
  induction 1 as [|i items Hi _ [vs IH]]; simpl.
  - eexists. reflexivity.
  - unfold getattr at 1. destruct (field i) as [v|]; [|congruence].
    simpl. rewrite IH. simpl. eexists. reflexivity.
Qed.

Lemma map_result_getattr_sum (name : string)
  (field : InventoryItem.t -> option Z) (items : list InventoryItem.t)
  (vs : list Z) :
  map_result (getattr name field) items = Ok vs ->
  py_sum vs = attr_sum field items.
Proof.
  intros H. apply map_result_Ok in H. unfold attr_sum. f_equal.
  induction H as [|i v items vs Hv _ IH]; simpl.
  - reflexivity.
  - apply getattr_Ok in Hv. rewrite Hv, IH. reflexivity.
Qed.

(** *** [sorted] *)

Lemma insert_by_key_Permutation {A : Type} (x : Date.t * A)
  (l : list (Date.t * A)) :
  Permutation (insert_by_key x l) (x :: l).
Proof.
  induction l as [|y l IH]; simpl.
  - apply Permutation_refl.
  - destruct (Date.ltb (fst y) (fst x)).
    + apply Permutation_trans with (y :: x :: l).
      * constructor. exact IH.
      * constructor.
    + apply Permutation_refl.
Qed.

Lemma sorted_by_key_Permutation {A : Type} (l : list (Date.t * A)) :
  Permutation (sorted_by_key l) l.
Proof.
  induction l as [|x l IH]; simpl.
  - constructor.
  - apply Permutation_trans with (x :: sorted_by_key l).
    + apply insert_by_key_Permutation.
    + constructor. exact IH.
Qed.

Lemma insert_by_key_sorted {A : Type} (x : Date.t * A)
  (l : list (Date.t * A)) :
  StronglySorted key_le l -> StronglySorted key_le (insert_by_key x l).
Proof.
  induction 1 as [|y l Hl IH Hy]; simpl.
  - constructor; constructor.
  - destruct (Date.ltb (fst y) (fst x)) eqn:E.
    + constructor; [exact IH|].
      apply Forall_forall. intros z Hz.
      apply (Permutation_in _ (insert_by_key_Permutation x l)) in Hz.
      destruct Hz as [<- | Hz].
      * unfold key_le, date_le.
        destruct (Date.ltb (fst x) (fst y)) eqn:E'; [|reflexivity].
        pose proof (Date_ltb_trans _ _ _ E E') as C.
        rewrite Date_ltb_irrefl in C. discriminate.
      * rewrite Forall_forall in Hy. apply Hy. exact Hz.
    + constructor; [constructor; assumption|].
      constructor; [exact E|].
      apply Forall_forall. intros z Hz. rewrite Forall_forall in Hy.
      apply date_le_trans with (fst y); [exact E | apply Hy; exact Hz].
Qed.

Lemma sorted_by_key_sorted {A : Type} (l : list (Date.t * A)) :
  StronglySorted key_le (sorted_by_key l).
Proof.
  induction l as [|x l IH]; simpl.
  - constructor.
  - apply insert_by_key_sorted. exact IH.
Qed.

Lemma combine_keys (items : list InventoryItem.t) (keys : list Date.t) :
  Forall2 (fun x k => InventoryItem.buy_date x = Some k) items keys ->
  map snd (combine keys items) = items
  /\ Forall (fun kx => InventoryItem.buy_date (snd kx) = Some (fst kx))
            (combine keys items).
Proof.
  induction 1 as [|x k items keys Hk _ [IH1 IH2]]; simpl.
  - split; constructor.
  - split; [rewrite IH1; reflexivity|]. constructor; assumption.
Qed.

Lemma bought_before_of_keys (l : list (Date.t * InventoryItem.t)) :
  Forall (fun kx => InventoryItem.buy_date (snd kx) = Some (fst kx)) l ->
  StronglySorted key_le l ->
  StronglySorted bought_before (map snd l).
Proof.
  intros Hkeys Hs. induction Hs as [|y l Hl IH Hy]; simpl.
  - constructor.
  - inversion Hkeys as [|y' l' Hky Hkl]; subst.
    constructor; [apply IH; exact Hkl|].
    apply Forall_forall. intros z Hz. apply in_map_iff in Hz.
    destruct Hz as [kz [<- Hin]].
    rewrite Forall_forall in Hy, Hkl.
    intros dx dy Hdx Hdy.
    rewrite Hky in Hdx. rewrite (Hkl kz Hin) in Hdy.
    injection Hdx as <-. injection Hdy as <-.
    apply (Hy kz Hin).
Qed.

(** The items in the order of [sorted(items, key=buy_date)]. *)
Lemma sorted_items (items : list InventoryItem.t) (keys : list Date.t) :
  Forall2 (fun x k => InventoryItem.buy_date x = Some k) items keys ->
  let ordered := map snd (sorted_by_key (combine keys items)) in
  Permutation items ordered /\ StronglySorted bought_before ordered.
Proof.
  intros H ordered. destruct (combine_keys items keys H) as [Hsnd Hkeys].
  split.
  - rewrite <- Hsnd at 1. apply Permutation_map, Permutation_sym,
      sorted_by_key_Permutation.
  - apply bought_before_of_keys; [|apply sorted_by_key_sorted].
    apply Forall_forall. intros kx Hin.
    rewrite Forall_forall in Hkeys. apply Hkeys.
    apply (Permutation_in _ (sorted_by_key_Permutation _)). exact Hin.
Qed.

Section RendererFacts.
Variable colored : option string -> string -> string.
Variable colored_bold : string -> string.
Variable str : Z -> string.
Variable isoformat : Date.t -> string.
Variable decode : string -> string.

Lemma item_line_assigned (x : InventoryItem.t) :
  assigned x ->
  exists line,
    item_line colored str isoformat x = Ok line
    /\ List.length line = 7%nat.
Proof.
  intros [Hc [Hi [_ [_ [Hb [Ht [Hl [Hn Hd]]]]]]]].
  unfold item_line, getattr.
  destruct (InventoryItem.buy_date x); [|congruence].
  destruct (InventoryItem.code x); [|congruence].
  destruct (InventoryItem.item x); [|congruence].
  destruct (InventoryItem.total_value x); [|congruence].
  destruct (InventoryItem.last_year_value x); [|congruence].
  destruct (InventoryItem.deprecation_amount x); [|congruence].
  destruct (InventoryItem.next_year_value x); [|congruence].
  simpl. eexists. split; reflexivity.
Qed.

Lemma item_line_length (x : InventoryItem.t) (line : list string) :
  item_line colored str isoformat x = Ok line -> List.length line = 7%nat.
Proof.
  unfold item_line, getattr.
  destruct (InventoryItem.buy_date x); [|discriminate].
  destruct (InventoryItem.code x); [|discriminate].
  destruct (InventoryItem.item x); [|discriminate].
  destruct (InventoryItem.total_value x); [|discriminate].
  destruct (InventoryItem.last_year_value x); [|discriminate].
  destruct (InventoryItem.deprecation_amount x); [|discriminate].
  destruct (InventoryItem.next_year_value x); [|discriminate].
  simpl. intros H. injection H as <-. reflexivity.
Qed.

Lemma map_result_item_line_total (xs : list InventoryItem.t) :
  Forall assigned xs ->
  exists lines, map_result (item_line colored str isoformat) xs = Ok lines.
Proof.
  induction 1 as [|x xs Hx _ [lines IH]]; cbn [map_result].
  - eexists. reflexivity.
  - destruct (item_line_assigned x Hx) as [line [Hline _]].
    rewrite Hline, IH. simpl. eexists. reflexivity.
Qed.

(** The pieces of a table that [create_table] returned. *)
Lemma create_table_inv (items : list InventoryItem.t) (year : Z)
  (table : list (list string)) :
  create_table colored colored_bold str isoformat decode items year
  = Ok table ->
  exists keys lines,
    map_result (getattr "buy_date" InventoryItem.buy_date) items = Ok keys
    /\ map_result (item_line colored str isoformat)
                  (map snd (sorted_by_key (combine keys items)))
       = Ok lines
    /\ table
       = map (map decode)
             ([map colored_bold
                   [ "Kaufdatum"; "Beleg"; "Gerät"; "Kaufpreis";
                     String.append "Buchwert " (str (year - 1));
                     "Abschreibung";
                     String.append "Buchwert " (str year) ]]
              ++ lines
              ++ [map colored_bold
                      (table_entry
                         colored str "" (Some "") "Gesamt"
                         (attr_sum InventoryItem.total_value items)
                         (attr_sum InventoryItem.last_year_value items)
                         (attr_sum InventoryItem.deprecation_amount items)
                         (attr_sum InventoryItem.next_year_value items))]).
Proof.
  unfold create_table.
  destruct (map_result (getattr "total_value" InventoryItem.total_value)
                       items) as [totals|e] eqn:Et; [|discriminate].
  destruct (map_result (getattr "last_year_value"
                                InventoryItem.last_year_value)
                       items) as [lasts|e] eqn:El; [|discriminate].
  destruct (map_result (getattr "deprecation_amount"
                                InventoryItem.deprecation_amount)
                       items) as [deps|e] eqn:Ed; [|discriminate].
  destruct (map_result (getattr "next_year_value"
                                InventoryItem.next_year_value)
                       items) as [nexts|e] eqn:En; [|discriminate].
  destruct (map_result (getattr "buy_date" InventoryItem.buy_date) items)
    as [keys|e] eqn:Ek; [|discriminate].
  cbn [and_then].
  destruct (map_result (item_line colored str isoformat)
                       (map snd (sorted_by_key (combine keys items))))
    as [lines|e] eqn:Elines; [|discriminate].
  cbn [and_then]. intros H. injection H as <-.
  exists keys, lines.
  split; [first [reflexivity | exact Ek]|].
  split; [first [reflexivity | exact Elines]|].
  rewrite (map_result_getattr_sum _ _ _ _ Et),
          (map_result_getattr_sum _ _ _ _ El),
          (map_result_getattr_sum _ _ _ _ Ed),
          (map_result_getattr_sum _ _ _ _ En).
  reflexivity.
Qed.

Lemma Forall_assigned_field {A : Type}
  (field : InventoryItem.t -> option A) (items : list InventoryItem.t) :
  (forall i, assigned i -> field i <> None) ->
  Forall assigned items -> Forall (fun i => field i <> None) items.
Proof.
  intros H Hall. apply Forall_forall. intros i Hi.
  rewrite Forall_forall in Hall. apply H, Hall, Hi.
Qed.

(** On fully assigned items [create_table] returns. *)
Lemma create_table_total (items : list InventoryItem.t) (year : Z) :
  Forall assigned items ->
  exists table,
    create_table colored colored_bold str isoformat decode items year
    = Ok table.
Proof.
  intros Hall. unfold create_table.
  destruct (map_result_getattr_total
              "total_value" InventoryItem.total_value items) as [ts ->].
  { apply Forall_assigned_field; [|exact Hall]. unfold assigned. tauto. }
  destruct (map_result_getattr_total
              "last_year_value" InventoryItem.last_year_value items)
    as [ls ->].
  { apply Forall_assigned_field; [|exact Hall]. unfold assigned. tauto. }
  destruct (map_result_getattr_total
              "deprecation_amount" InventoryItem.deprecation_amount items)
    as [ds ->].
  { apply Forall_assigned_field; [|exact Hall]. unfold assigned. tauto. }
  destruct (map_result_getattr_total
              "next_year_value" InventoryItem.next_year_value items)
    as [ns ->].
  { apply Forall_assigned_field; [|exact Hall]. unfold assigned. tauto. }
  destruct (map_result_getattr_total
              "buy_date" InventoryItem.buy_date items) as [keys Hk].
  { apply Forall_assigned_field; [|exact Hall]. unfold assigned. tauto. }
  rewrite Hk. cbn [and_then].
  assert (Hkeys : Forall2 (fun x k => InventoryItem.buy_date x = Some k)
                          items keys).
  { apply map_result_Ok in Hk.
    induction Hk as [|x k xs ks Hx _ IH]; constructor.
    - apply getattr_Ok in Hx. exact Hx.
    - apply IH. inversion Hall. assumption. }
  destruct (sorted_items items keys Hkeys) as [Hperm _].
  assert (Hord : Forall assigned
                        (map snd (sorted_by_key (combine keys items)))).
  { apply Forall_forall. intros x Hx. rewrite Forall_forall in Hall.
    apply Hall.
    apply (Permutation_in _ (Permutation_sym Hperm)). exact Hx. }
  assert (Hlines : exists lines,
             map_result (item_line colored str isoformat)
                        (map snd (sorted_by_key (combine keys items)))
             = Ok lines).
  { apply map_result_item_line_total. exact Hord. }
  destruct Hlines as [lines ->]. cbn [and_then]. eexists. reflexivity.
Qed.

End RendererFacts.

Lemma buy_date_keys (items : list InventoryItem.t) (keys : list Date.t) :
  map_result (getattr "buy_date" InventoryItem.buy_date) items = Ok keys ->
  Forall2 (fun x k => InventoryItem.buy_date x = Some k) items keys.
Proof.
  intros H. apply map_result_Ok in H.
  induction H as [|x k xs ks Hx _ IH]; constructor.
  - apply getattr_Ok in Hx. exact Hx.
  - exact IH.
Qed.

Lemma Forall2_nth_error {A B : Type} (R : A -> B -> Prop) (xs : list A)
  (ys : list B) (i : nat) (x : A) :
  Forall2 R xs ys -> nth_error xs i = Some x ->
  exists y, nth_error ys i = Some y /\ R x y.
Proof.
  intros H. revert i. induction H as [|x' y xs ys Hxy _ IH]; intros i Hi.
  - destruct i; discriminate.
  - destruct i as [|i]; simpl in *.
    + injection Hi as <-. exists y. auto.
    + apply IH. exact Hi.
Qed.

Lemma Forall2_in_r {A B : Type} (R : A -> B -> Prop) (xs : list A)
  (ys : list B) (y : B) :
  Forall2 R xs ys -> In y ys -> exists x, In x xs /\ R x y.
Proof.
  induction 1 as [|x y' xs ys Hxy _ IH]; intros Hy.
  - contradiction.
  - destruct Hy as [<- | Hy].
    + exists x. split; [left; reflexivity | exact Hxy].
    + destruct (IH Hy) as [x' [Hin Hx']]. exists x'. split; [right|]; assumption.
Qed.


Section RendererProperties.
Variable colored : option string -> string -> string.
Variable colored_bold : string -> string.
Variable str : Z -> string.
Variable isoformat : Date.t -> string.
Variable decode : string -> string.

(** X13. On items whose attributes are all assigned [create_table]
    returns a table with a header, one line per item and a footer, every
    row having seven cells. *)
Theorem create_table_shape (items : list InventoryItem.t) (year : Z) :
  Forall assigned items ->
  exists table,
    create_table colored colored_bold str isoformat decode items year
    = Ok table
    /\ List.length table = S (S (List.length items))
    /\ Forall (fun row => List.length row = 7%nat) table.
Proof.
  intros Hall.
  destruct (create_table_total colored colored_bold str isoformat decode
                               items year Hall) as [table Htable].
  exists table. split; [exact Htable|].
  destruct (create_table_inv _ _ _ _ _ _ _ _ Htable)
    as [keys [lines [Hk [Hlines ->]]]].
  apply buy_date_keys in Hk.
  destruct (sorted_items items keys Hk) as [Hperm _].
  apply map_result_Ok in Hlines.
  split.
  - rewrite length_map. simpl. rewrite length_app. simpl.
    rewrite <- (Forall2_length Hlines), <- (Permutation_length Hperm). lia.
  - apply Forall_forall. intros row Hrow.
    apply in_map_iff in Hrow. destruct Hrow as [r [<- Hr]].
    rewrite length_map. cbn [app] in Hr.
    destruct Hr as [<- | Hr]; [reflexivity|].
    apply in_app_or in Hr. destruct Hr as [Hr | [<- | []]]; [|reflexivity].
    destruct (Forall2_in_r _ _ _ _ Hlines Hr) as [x [_ Hx]].
    eapply item_line_length. exact Hx.
Qed.

(** X14. The lines of the table are the lines of the items in ascending
    order of buy date: row [i + 1] is the line of the [i]-th item of a
    rearrangement of the items in which no item is bought after a later
    one. *)
Theorem create_table_sorted (items : list InventoryItem.t) (year : Z)
  (table : list (list string)) :
  create_table colored colored_bold str isoformat decode items year
  = Ok table ->
  exists ordered,
    Permutation items ordered
    /\ StronglySorted bought_before ordered
    /\ forall i x,
        nth_error ordered i = Some x ->
        exists line,
          item_line colored str isoformat x = Ok line
          /\ nth_error table (S i) = Some (map decode line).
Proof.
  intros Htable.
  destruct (create_table_inv _ _ _ _ _ _ _ _ Htable)
    as [keys [lines [Hk [Hlines ->]]]].
  apply buy_date_keys in Hk.
  destruct (sorted_items items keys Hk) as [Hperm Hsorted].
  exists (map snd (sorted_by_key (combine keys items))).
  split; [exact Hperm|]. split; [exact Hsorted|].
  intros i x Hi. apply map_result_Ok in Hlines.
  destruct (Forall2_nth_error _ _ _ _ _ Hlines Hi) as [line [Hn Hline]].
  exists line. split; [exact Hline|].
  simpl. rewrite map_app, nth_error_app1.
  - apply map_nth_error. exact Hn.
  - rewrite length_map. apply nth_error_Some. congruence.
Qed.


End RendererProperties.

Lemma sample_item_assigned : Forall assigned [sample_item].
Proof.
  constructor; [|constructor].
  unfold assigned. simpl. repeat split; discriminate.
Qed.

Lemma create_table_shape_witness :
  exists table,
    create_table (fun _ _ => "") (fun s => s) (fun _ => "") (fun _ => "")
                 (fun s => s) [sample_item] 2021
    = Ok table
    /\ List.length table = 3%nat
    /\ Forall (fun row => List.length row = 7%nat) table.
Proof.
  exact (create_table_shape (fun _ _ => "") (fun s => s) (fun _ => "")
                            (fun _ => "") (fun s => s) [sample_item] 2021
                            sample_item_assigned).
Defined.

Lemma create_table_sorted_witness :
  exists table ordered,
    create_table (fun _ _ => "") (fun s => s) (fun _ => "")
                 (fun date => if Date.year date =? 2020 then "2020"
                              else "later")
                 (fun s => s) [sample_item_late; sample_item] 2021
    = Ok table
    /\ Permutation [sample_item_late; sample_item] ordered
    /\ StronglySorted bought_before ordered
    /\ ordered = [sample_item; sample_item_late]
    /\ nth_error table 1
       = Some ["2020"; ""; "Laptop"; ""; ""; ""; ""]
    /\ nth_error table 2
       = Some ["later"; ""; "Printer"; ""; ""; ""; ""].
Proof.
  eexists.
  destruct (create_table_sorted
              (fun _ _ => "") (fun s => s) (fun _ => "")
              (fun date => if Date.year date =? 2020 then "2020"
                           else "later")
              (fun s => s) [sample_item_late; sample_item] 2021 _ eq_refl)
    as [ordered [Hp [Hs Hrows]]].
  exists ordered.
  assert (Hordered : ordered = [sample_item; sample_item_late]).
  { destruct (Permutation_length_2_inv Hp) as [-> | ->]; [|reflexivity].
    exfalso. inversion Hs as [|x l _ Hall]; subst.
    inversion Hall as [|y l' Hb _]; subst.
    specialize (Hb _ _ eq_refl eq_refl). vm_compute in Hb. discriminate. }
  split; [reflexivity|]. split; [exact Hp|]. split; [exact Hs|].
  split; [exact Hordered|]. subst ordered. split.
  - destruct (Hrows 0%nat sample_item eq_refl) as [line [Hline Hrow]].
    vm_compute in Hline. injection Hline as <-. exact Hrow.
  - destruct (Hrows 1%nat sample_item_late eq_refl) as [line [Hline Hrow]].
    vm_compute in Hline. injection Hline as <-. exact Hrow.
Defined.


Lemma table_not_among_lines (lines : list output)
  (items : list InventoryItem.t) (year : Z) :
  forallb is_line lines = true -> ~ In (Table items year) lines.
Proof.
  intros H Hin. rewrite forallb_forall in H.
  specialize (H _ Hin). discriminate.
Qed.

(** X16. Whatever table [main] prints can be rendered: it is printed
    for the requested year, no exception escaped, and [create_table]
    returns on its items. *)
Theorem main_table_renders
  (colored : option string -> string -> string)
  (colored_bold : string -> string) (str : Z -> string)
  (isoformat : Date.t -> string) (decode : string -> string)
  (journal : Journal.t) (konto : string) (jahr year : Z)
  (items : list InventoryItem.t) :
  In (Table items year) (fst (main journal konto jahr)) ->
  year = jahr
  /\ snd (main journal konto jahr) = None
  /\ exists table,
      create_table colored colored_bold str isoformat decode items year
      = Ok table.
Proof.
  unfold main.
  destruct (get_afa_posts journal konto jahr) as [posts|e].
  - destruct (new_all_spec journal jahr (get_inventory journal posts) [])
      as [printed [Hsnd [Hl [_ Hres]]]].
    simpl in Hsnd.
    destruct (new_all journal jahr (get_inventory journal posts) [])
      as [[its|e] out]; cbn [fst snd] in *; subst out.
    + intros Hin. apply in_app_or in Hin.
      destruct Hin as [Hin | [Heq | []]].
      * exfalso. exact (table_not_among_lines _ _ _ Hl Hin).
      * injection Heq as <- <-. split; [reflexivity|].
        split; [reflexivity|].
        apply create_table_total. apply Hres.
    + intros Hin. exfalso.
      destruct e as [m | m]; simpl in Hin.
      * apply in_app_or in Hin. destruct Hin as [Hin | [Heq | []]].
        -- exact (table_not_among_lines _ _ _ Hl Hin).
        -- discriminate.
      * exact (table_not_among_lines _ _ _ Hl Hin).
  - destruct e as [m | m]; simpl.
    + intros [Heq | []]. discriminate.
    + intros [].
Qed.

Lemma main_table_renders_witness :
  exists table,
    create_table (fun _ _ => "") (fun s => s) (fun _ => "") (fun _ => "")
                 (fun s => s) [sample_item] 2021
    = Ok table.
Proof.
  exact (proj2 (proj2 (main_table_renders
                         (fun _ _ => "") (fun s => s) (fun _ => "")
                         (fun _ => "") (fun s => s)
                         Sample.journal "AfA" 2021 2021 [sample_item]
                         (or_introl eq_refl)))).
Defined.
